(** * aider/repo.py: the [AiderRepo] wrapper, embedded and verified

    [AiderRepo] coordinates two external collaborators: a git repository
    (through GitPython) and a chat-completion service (through
    [send_with_retries]).  Both are modelled as interfaces (type classes);
    the methods of [AiderRepo] are state-passing functions over a [World]
    that holds the state of both collaborators together with the trace of
    what the methods asked of them and of what they told the user. *)

From Stdlib Require Import ZArith Ascii String List Bool Lia.
From stdpp Require Import base gmap strings sets list.
Import ListNotations.

Local Open Scope string_scope.
Local Open Scope list_scope.

(** ** Python strings

    A [str] is a [string]; the character with code [n] stands for the code
    point [n].  Only what repo.py uses is modelled: [len], truthiness,
    indexing, slicing with a unit step, and [str.strip]. *)

Module Py.

Definition len (s : string) : Z := Z.of_nat (String.length s).

(** [bool(s)] for a [str]. *)
Definition truthy (s : string) : bool :=
  match s with
  | EmptyString => false
  | String _ _ => true
  end.

(** [bool(o)] for a value that is [None] or a [str]. *)
Definition truthy_opt (o : option string) : bool :=
  match o with
  | None => false
  | Some s => truthy s
  end.

(** [str.isspace] on one character, for code points below 256. *)
Definition isspace (c : ascii) : bool :=
  let n := nat_of_ascii c in
  (((9 <=? n) && (n <=? 13)) || ((28 <=? n) && (n <=? 32))
   || (n =? 133) || (n =? 160))%nat.

Fixpoint lstrip (s : string) : string :=
  match s with
  | EmptyString => EmptyString
  | String c r => if isspace c then lstrip r else s
  end.

Fixpoint rstrip (s : string) : string :=
  match s with
  | EmptyString => EmptyString
  | String c r =>
      match rstrip r with
      | EmptyString => if isspace c then EmptyString else String c EmptyString
      | r' => String c r'
      end
  end.

Definition strip (s : string) : string := rstrip (lstrip s).

(** [s[i]]; [None] stands for [IndexError]. *)
Definition index (s : string) (i : Z) : option ascii :=
  let i := if (i <? 0)%Z then (i + len s)%Z else i in
  if (i <? 0)%Z then None else String.get (Z.to_nat i) s.

(** One bound of a slice, as [slice.indices] adjusts it. *)
Definition clamp (s : string) (i : Z) : Z :=
  let i := if (i <? 0)%Z then (i + len s)%Z else i in
  Z.max 0 (Z.min i (len s)).

(** [s[start:stop]]. *)
Definition slice (s : string) (start stop : Z) : string :=
  let a := clamp s start in
  let b := clamp s stop in
  String.substring (Z.to_nat a) (Z.to_nat (b - a)) s.

(** [s[:stop]]. *)
Definition slice_to (s : string) (stop : Z) : string := slice s 0 stop.

End Py.

Definition nl : string := String "010"%char EmptyString.
Definition dquote : ascii := "034"%char.

(** ** Exceptions and results *)

Inductive Exn : Type :=
  | FileNotFoundError
  | IndexError
  | ValueError
  | NoSuchPathError
  | GitCommandError
  | UncaughtError.

Inductive Result (A : Type) : Type :=
  | Return (a : A)
  | Raise (e : Exn).
Arguments Return {A} a.
Arguments Raise {A} e.

(** ** The collaborators *)

(** [type] of an object met by [tree.traverse()]. *)
Inductive ObjType : Type :=
  | blob
  | tree
  | submodule.

Definition ObjType_eqb (a b : ObjType) : bool :=
  match a, b with
  | blob, blob | tree, tree | submodule, submodule => true
  | _, _ => false
  end.

Record TreeEntry : Type := { type : ObjType; path : string }.

(** [repo.head.commit]: its [hexsha] and what [commit.tree.traverse()]
    yields, in order. *)
Record Commit : Type := { hexsha : string; traverse : list TreeEntry }.

(** One use of [repo.git.<command>], with its positional arguments. *)
Record GitCall : Type := { command : string; arguments : list string }.

(** What GitPython offers on a [git.Repo]; [G] is the state of the
    repository on disk.  [repo_git] gives [None] where the git command
    fails ([GitCommandError]); [repo_head_commit] is [None] where
    [repo.head.commit] raises [ValueError] (no commit yet). *)
Class VersionControl (G : Type) : Type := {
  repo_is_dirty : G -> bool;
  repo_git : string -> list string -> G -> option string * G;
  repo_head_commit : G -> option Commit
}.

(** A chat message, [dict(role=..., content=...)]. *)
Record Message : Type := { role : string; content : string }.

(** One call [send_with_retries(model=..., messages=..., functions=None,
    stream=False)]. *)
Record Request : Type := { model : string; messages : list Message }.

(** What the [try] block of [get_commit_message] can end with:
    [response.choices[0].message.content] (possibly [None]), one of the
    two exceptions the [except] clause names, or any other exception
    ([OtherError]), which the clause lets through. *)
Inductive SendOutcome : Type :=
  | Completion (content : option string)
  | AttributeError
  | InvalidRequestError
  | OtherError.

(** The chat-completion service; [L] is its state, so that two identical
    requests may be answered differently. *)
Class TextGeneration (L : Type) : Type := {
  send_with_retries : string -> list Message -> L -> SendOutcome * L
}.

(** [io.tool_output] and [io.tool_error]. *)
Inductive IoEvent : Type :=
  | tool_output (text : string)
  | tool_error (text : string).

(** What [get_tracked_files] returns: a list on one path, a set on the
    others. *)
Inductive PyColl : Type :=
  | PyList (l : list string)
  | PySet (s : gset string).

(** ** Paths

    [PurePosixPath(path).parts] for a relative [path]: the components
    between slashes, without the empty ones and the single dots. *)

Fixpoint split_slash (s : string) : list string :=
  match s with
  | EmptyString => [EmptyString]
  | String c r =>
      if Ascii.eqb c "/"%char then EmptyString :: split_slash r
      else match split_slash r with
           | h :: t => String c h :: t
           | [] => [String c EmptyString]
           end
  end.

Definition kept_part (part : string) : bool :=
  negb (String.eqb part EmptyString) && negb (String.eqb part ".").

Definition posix_parts (p : string) : list string :=
  List.filter kept_part (split_slash p).

(** ** The world and its monad *)

Record World (G L : Type) : Type := {
  repo : G;
  service : L;
  git_calls : list GitCall;
  requests : list Request;
  io : list IoEvent
}.
Arguments repo {G L} _.
Arguments service {G L} _.
Arguments git_calls {G L} _.
Arguments requests {G L} _.
Arguments io {G L} _.

Definition M (W A : Type) : Type := W -> Result A * W.

Definition ret {W A : Type} (a : A) : M W A := fun w => (Return a, w).

Definition raise {W A : Type} (e : Exn) : M W A := fun w => (Raise e, w).

Definition bind {W A B : Type} (m : M W A) (k : A -> M W B) : M W B :=
  fun w =>
    match m w with
    | (Return a, w') => k a w'
    | (Raise e, w') => (Raise e, w')
    end.

Declare Scope py_scope.
Delimit Scope py_scope with py.
Notation "x <- m ;; k" := (bind m (fun x => k))
  (at level 100, m at next level, k at level 200, only parsing) : py_scope.
Notation "m ;; k" := (bind m (fun _ => k))
  (at level 100, k at level 200, only parsing) : py_scope.
Local Open Scope py_scope.

Section AiderRepo.

Context {G L : Type} `{VersionControl G} `{TextGeneration L}.

(** [models.GPT35.name], [models.GPT35_16k.name] and
    [prompts.commit_system] live in other modules of the package. *)
Variable GPT35_name : string.
Variable GPT35_16k_name : string.
Variable commit_system : string.

Abbreviation W := (World G L).

(** *** Primitive actions *)

Definition io_tool_output (text : string) : M W unit :=
  fun w => (Return tt, {| repo := repo w; service := service w;
                          git_calls := git_calls w; requests := requests w;
                          io := io w ++ [tool_output text] |}).

Definition io_tool_error (text : string) : M W unit :=
  fun w => (Return tt, {| repo := repo w; service := service w;
                          git_calls := git_calls w; requests := requests w;
                          io := io w ++ [tool_error text] |}).

(** [self.repo.git.<cmd>], called with [args]; it raises
    [GitCommandError] when git fails. *)
Definition git (cmd : string) (args : list string) : M W string :=
  fun w => let (out, g) := repo_git cmd args (repo w) in
           (match out with
            | Some text => Return text
            | None => Raise GitCommandError
            end,
                 {| repo := g; service := service w;
                    git_calls := git_calls w ++ [{| command := cmd; arguments := args |}];
                    requests := requests w; io := io w |}).

Definition send (mdl : string) (msgs : list Message) : M W SendOutcome :=
  fun w => let (r, l) := send_with_retries mdl msgs (service w) in
           (Return r,
               {| repo := repo w; service := l;
                  git_calls := git_calls w;
                  requests := requests w ++ [{| model := mdl; messages := msgs |}];
                  io := io w |}).

(** *** [AiderRepo.is_dirty] *)
Definition is_dirty : M W bool :=
  fun w => (Return (repo_is_dirty (repo w)), w).

(** *** [AiderRepo.get_diffs] *)
Definition get_diffs (pretty : bool) (args : list string) : M W string :=
  let args := if pretty then "--color" :: args else args in
  let args := match args with [] => ["HEAD"] | _ => args end in
  git "diff" args.

(** *** [AiderRepo.get_commit_message] *)

(** The [for model in [...]] loop with its [try]/[except]/[break].  The
    call passes [models.GPT35.name]; the loop variable is not used. *)
Fixpoint try_models (msgs : list Message) (models : list string)
  : M W (option string) :=
  match models with
  | [] => ret None
  | _model :: rest =>
      r <- send GPT35_name msgs ;;
      match r with
      | Completion c => ret c
      | AttributeError | InvalidRequestError => try_models msgs rest
      | OtherError => raise UncaughtError
      end
  end.

(** The user message sent for [diffs] and [context]. *)
Definition prompt_content (diffs : string) (context : option string) : string :=
  let diffs := "# Diffs:" +:+ nl +:+ diffs in
  let content := EmptyString in
  let content :=
    match context with
    | Some c => if Py.truthy c then content +:+ c +:+ nl else content
    | None => content
    end in
  content +:+ diffs.

Definition prompt_messages (diffs : string) (context : option string)
  : list Message :=
  [ {| role := "system"; content := commit_system |};
    {| role := "user"; content := prompt_content diffs context |} ].

(** Lines 128-130: what is done to a non-empty reply. *)
Definition postprocess (commit_message : string) : string :=
  let commit_message := Py.strip commit_message in
  if Py.truthy commit_message
     && bool_decide (Py.index commit_message 0 = Some dquote)
     && bool_decide (Py.index commit_message (-1) = Some dquote)
  then Py.strip (Py.slice commit_message 1 (-1))
  else commit_message.

Definition get_commit_message (diffs : string) (context : option string)
  : M W (option string) :=
  if (4 * 1024 * 4 <=? Py.len diffs)%Z then
    io_tool_error ("Diff is too large for " +:+ GPT35_name
                   +:+ " to generate a commit message.") ;;
    ret None
  else
    commit_message <- try_models (prompt_messages diffs context)
                                 [GPT35_name; GPT35_16k_name] ;;
    match commit_message with
    | Some (String c r) => ret (Some (postprocess (String c r)))
    | _ => io_tool_error "Failed to generate commit message!" ;; ret None
    end.

(** *** [AiderRepo.commit]

    [dump] writes to the standard output, which is not part of the world
    of this method nor of [get_commit_message]; [show_diffs] below records
    what it prints. *)

Definition placeholder : string := "(no commit message provided)".

Definition chat_header : string :=
  nl +:+ nl +:+ "# Aider chat conversation:" +:+ nl +:+ nl.

Definition commit (context prefix message : option string)
  : M W (option (string * string)) :=
  dirty <- is_dirty ;;
  if negb dirty then ret None
  else
    commit_message <-
      (if Py.truthy_opt message then ret message
       else diffs <- get_diffs false [] ;;
            get_commit_message diffs context) ;;
    let commit_message :=
      match commit_message with
      | Some (String c r) => String c r
      | _ => placeholder
      end in
    let commit_message :=
      match prefix with
      | Some (String c r) => String c r +:+ commit_message
      | _ => commit_message
      end in
    let full_commit_message :=
      match context with
      | Some (String c r) => commit_message +:+ chat_header +:+ String c r
      | _ => commit_message
      end in
    git "commit" ["-a"; "-m"; full_commit_message; "--no-verify"] ;;
    fun w =>
      match repo_head_commit (repo w) with
      | None => (Raise ValueError, w)
      | Some c =>
          let commit_hash := Py.slice_to (hexsha c) 7 in
          (io_tool_output ("Commit " +:+ commit_hash +:+ " " +:+ commit_message) ;;
           ret (Some (commit_hash, commit_message))) w
      end.

(** *** [AiderRepo.get_tracked_files] *)

(** [os.sep] of the host. *)
Variable os_sep : string.

(** The loop that collects [blob.path] of the blobs. *)
Fixpoint collect_blobs (entries : list TreeEntry) (files : list string)
  : list string :=
  match entries with
  | [] => files
  | e :: rest =>
      if ObjType_eqb (type e) blob
      then collect_blobs rest (files ++ [path e])
      else collect_blobs rest files
  end.

(** [str(Path(PurePosixPath(path)))], for a relative [path] (a blob's
    path is relative to the root of the repository): the parts joined by
    the separator of the host, and a single dot when there is no part. *)
Definition os_path (p : string) : string :=
  match posix_parts p with
  | [] => "."
  | parts => String.concat os_sep parts
  end.

(** [self_repo] is [self.repo]: [None] is the class-level default, [Some g]
    a repository in state [g]. *)
Definition get_tracked_files (self_repo : option G) : PyColl :=
  match self_repo with
  | None => PyList []
  | Some g =>
      match repo_head_commit g with
      | None => PySet ∅
      | Some c =>
          let files := collect_blobs (traverse c) [] in
          PySet (list_to_set (map os_path files))
      end
  end.

End AiderRepo.

(** ** [AiderRepo.__init__] *)

(** What a constructed instance holds: the path its [git.Repo] was opened
    on, and [self.root]. *)
Record AiderRepo : Type := { repo_path : string; root : string }.

(** What [git.Repo(p, search_parent_directories=True)] comes to: a
    repository with its [working_dir], [InvalidGitRepositoryError] (no
    repository at [p] or above), or [NoSuchPathError] ([p] does not
    exist). *)
Inductive Lookup : Type :=
  | WorkingDir (dir : string)
  | NotARepository
  | MissingPath.

Section Init.

(** [Path(fname).resolve()], as a string. *)
Variable resolve : string -> string.
(** [git.Repo(p, search_parent_directories=True).working_dir] *)
Variable working_dir : string -> Lookup.
(** [utils.safe_abs_path] *)
Variable safe_abs_path : string -> string.
(** [git.Repo(p, odbt=git.GitDB).working_tree_dir] *)
Variable working_tree_dir : string -> string.

(** The [try] for one [fname]: the path to append, [None] where the
    [except] clause passes, or the exception it does not catch. *)
Definition find_repo_path (fname : string) : Result (option string) :=
  match working_dir (resolve fname) with
  | WorkingDir repo_path => Return (Some (safe_abs_path repo_path))
  | NotARepository => Return None
  | MissingPath => Raise NoSuchPathError
  end.

Fixpoint collect_repo_paths (check_fnames : list string)
  (repo_paths : list string) : Result (list string) :=
  match check_fnames with
  | [] => Return repo_paths
  | fname :: rest =>
      match find_repo_path fname with
      | Return (Some repo_path) => collect_repo_paths rest (repo_paths ++ [repo_path])
      | Return None => collect_repo_paths rest repo_paths
      | Raise e => Raise e
      end
  end.

Definition check_fnames_of (fnames : list string) : list string :=
  match fnames with
  | [] => ["."]
  | _ => fnames
  end.

Definition init (fnames : list string) (io : list IoEvent)
  : Result AiderRepo * list IoEvent :=
  let check_fnames := check_fnames_of fnames in
  match collect_repo_paths check_fnames [] with
  | Raise e => (Raise e, io)
  | Return repo_paths =>
      let num_repos := size (list_to_set repo_paths : gset string) in
      if (num_repos =? 0)%nat then (Raise FileNotFoundError, io)
      else if (1 <? num_repos)%nat then
        (Raise FileNotFoundError,
         io ++ [tool_error "Files are in different git repos."])
      else
        match last repo_paths with
        | None => (Raise IndexError, io)
        | Some p =>
            (Return {| repo_path := p;
                       root := safe_abs_path (working_tree_dir p) |}, io)
        end
  end.

End Init.

(** ** The other methods *)

(** [self.repo.iter_commits(self.repo.active_branch)] as [any] consumes
    it: the commits of the active branch, or [None] where iterating
    raises [GitCommandError]. *)
Class BranchHistory (G : Type) : Type := {
  repo_iter_commits : G -> option (list Commit)
}.

Section OtherMethods.

Context {G L : Type} `{VersionControl G} `{BranchHistory G} `{TextGeneration L}.

Variable os_sep : string.
(** [Path(fn).resolve()], as a string. *)
Variable resolve : string -> string.
(** What [dump] prints for the flag it is given; the [dump] module is
    another module of the package. *)
Variable dump_text : bool -> string.

Abbreviation W := (World G L).

(** The members of a collection, as a loop over it meets them. *)
Definition items (c : PyColl) : list string :=
  match c with
  | PyList l => l
  | PySet s => elements s
  end.

(** *** [AiderRepo.add_new_files] *)

(** The [for fname in fnames] loop. *)
Fixpoint add_loop (cur_files : list string) (fnames : list string) : M W unit :=
  match fnames with
  | [] => ret tt
  | fname :: rest =>
      if bool_decide (resolve fname ∈ cur_files) then add_loop cur_files rest
      else
        io_tool_output ("Adding " +:+ fname +:+ " to git") ;;
        git "add" [fname] ;;
        add_loop cur_files rest
  end.

Definition add_new_files (fnames : list string) : M W unit :=
  fun w =>
    let cur_files :=
      List.map resolve (items (get_tracked_files os_sep (Some (repo w)))) in
    add_loop cur_files fnames w.

(** *** [AiderRepo.show_diffs] *)

(** The result, the lines written to the standard output, and the world. *)
Definition show_diffs (pretty : bool) (w : W)
  : Result (option string) * list string * W :=
  let current_branch_has_commits :=
    match repo_iter_commits (repo w) with
    | Some (_ :: _) => true
    | Some [] => false
    | None => false
    end in
  let stdout := [dump_text current_branch_has_commits] in
  if negb current_branch_has_commits
  then (Return (Some EmptyString), stdout, w)
  else
    match get_diffs pretty [] w with
    | (Return diffs, w') => (Return None, stdout ++ [diffs], w')
    | (Raise e, w') => (Raise e, stdout, w')
    end.

End OtherMethods.

(** ** Fixtures: a small repository and a scripted service

    Concrete instances of the two interfaces, used to run the methods. *)

Module Fixtures.

Record ToyRepo : Type := {
  toy_dirty : bool;
  toy_diff : string;
  toy_head : option Commit
}.

(** A commit with the files [a/b.txt] and [c.txt]. *)
Definition toy_commit : Commit :=
  {| hexsha := "8f3a2c91d0b7e6f5a4c3b2a1908f7e6d5c4b3a29";
     traverse := [ {| type := tree; path := "a" |};
                   {| type := blob; path := "a/b.txt" |};
                   {| type := blob; path := "c.txt" |} ] |}.

(** [git diff] prints the pending diff, and fails when it is asked for
    [HEAD] and there is no commit yet; [git add] fails for [ghost.txt], a
    name with no file; [git commit] records a commit and leaves a clean
    tree. *)
Definition toy_git (cmd : string) (args : list string) (g : ToyRepo)
  : option string * ToyRepo :=
  if String.eqb cmd "diff" then
    match toy_head g with
    | None => if existsb (String.eqb "HEAD") args then (None, g)
              else (Some (toy_diff g), g)
    | Some _ => (Some (toy_diff g), g)
    end
  else if String.eqb cmd "add" then
    (if existsb (String.eqb "ghost.txt") args then None else Some EmptyString, g)
  else if String.eqb cmd "commit" then
    (Some EmptyString,
     {| toy_dirty := false; toy_diff := EmptyString; toy_head := Some toy_commit |})
  else (Some EmptyString, g).

#[export] Instance toy_vc : VersionControl ToyRepo := {
  repo_is_dirty := toy_dirty;
  repo_git := toy_git;
  repo_head_commit := toy_head
}.

(** The service answers from a script, one entry per request, and rejects
    requests once the script is exhausted. *)
Definition scripted_send (_ : string) (_ : list Message)
  (script : list SendOutcome) : SendOutcome * list SendOutcome :=
  match script with
  | [] => (InvalidRequestError, [])
  | o :: rest => (o, rest)
  end.

#[export] Instance scripted : TextGeneration (list SendOutcome) := {
  send_with_retries := scripted_send
}.

Definition world (g : ToyRepo) (script : list SendOutcome)
  : World ToyRepo (list SendOutcome) :=
  {| repo := g; service := script; git_calls := []; requests := []; io := [] |}.

(** A dirty tree on top of the commit of the fixture. *)
Definition dirty_repo (diff : string) : ToyRepo :=
  {| toy_dirty := true; toy_diff := diff; toy_head := Some toy_commit |}.

(** A dirty tree in a repository with no commit yet. *)
Definition unborn_repo (diff : string) : ToyRepo :=
  {| toy_dirty := true; toy_diff := diff; toy_head := None |}.

Definition clean_repo : ToyRepo :=
  {| toy_dirty := false; toy_diff := EmptyString; toy_head := Some toy_commit |}.

Definition gpt35 : string := "gpt-3.5-turbo".
Definition gpt35_16k : string := "gpt-3.5-turbo-16k".
Definition system_prompt : string := "Write a one-line commit message.".

(** A string of [n] copies of [c]. *)
Fixpoint replicate_char (n : nat) (c : ascii) : string :=
  match n with
  | O => EmptyString
  | S n' => String c (replicate_char n' c)
  end.

(** [s] between two double quotes. *)
Definition quoted (s : string) : string :=
  String dquote (s +:+ String dquote EmptyString).

(** Two repositories, at [/home/u/proj] and [/home/u/other]; paths are
    given absolute, so the path functions change nothing. *)
Definition toy_working_dir (p : string) : Lookup :=
  if String.prefix "/home/u/proj/" p then WorkingDir "/home/u/proj"
  else if String.prefix "/home/u/other/" p then WorkingDir "/home/u/other"
  else if String.prefix "/tmp/" p then NotARepository
  else MissingPath.

Definition toy_init (fnames : list string) (io : list IoEvent)
  : Result AiderRepo * list IoEvent :=
  init (fun p => p) toy_working_dir (fun p => p) (fun p => p) fnames io.

Definition toy_find (fname : string) : Result (option string) :=
  find_repo_path (fun p => p) toy_working_dir (fun p => p) fname.

Abbreviation toy_commit_message :=
  (get_commit_message (L := list SendOutcome) gpt35 gpt35_16k system_prompt).
Abbreviation toy_do_commit :=
  (commit (G := ToyRepo) (L := list SendOutcome) gpt35 gpt35_16k system_prompt).

End Fixtures.

(** ** Vocabulary of the statements *)

(** A path as git stores it: components separated by single slashes, none
    of them empty or a single dot. *)
Definition git_path (p : string) : Prop :=
  Forall (fun part => kept_part part = true) (split_slash p).

(** [p] with every slash replaced by [sep]. *)
Fixpoint replace_slash (sep : string) (p : string) : string :=
  match p with
  | EmptyString => EmptyString
  | String c r =>
      if Ascii.eqb c "/"%char then sep +:+ replace_slash sep r
      else String c (replace_slash sep r)
  end.

Section Vocabulary.

Context {G L : Type} `{VersionControl G} `{TextGeneration L}.

(** The subject line [commit] ends up with, given what the message step
    produced and the prefix. *)
Definition subject_line (produced prefix : option string) : string :=
  let base := if Py.truthy_opt produced then default EmptyString produced
              else placeholder in
  if Py.truthy_opt prefix then default EmptyString prefix +:+ base else base.

(** The text handed to [git commit -m]. *)
Definition full_message (subject : string) (context : option string) : string :=
  if Py.truthy_opt context
  then subject +:+ chat_header +:+ default EmptyString context
  else subject.

Definition commit_call (full : string) : GitCall :=
  {| command := "commit"; arguments := ["-a"; "-m"; full; "--no-verify"] |}.

Definition diff_call (args : list string) : GitCall :=
  {| command := "diff"; arguments := args |}.

(** What [commit] does once the subject line is known. *)
Definition record_commit (subject full : string)
  : M (World G L) (option (string * string)) :=
  git "commit" ["-a"; "-m"; full; "--no-verify"] ;;
  fun w =>
    match repo_head_commit (repo w) with
    | None => (Raise ValueError, w)
    | Some c =>
        let commit_hash := Py.slice_to (hexsha c) 7 in
        (io_tool_output ("Commit " +:+ commit_hash +:+ " " +:+ subject) ;;
         ret (Some (commit_hash, subject))) w
    end.

(** What a caller of [commit] can see of the world without looking at the
    chat-completion service. *)
Definition outside_service (w : World G L) : G * list GitCall * list IoEvent :=
  (repo w, git_calls w, io w).

Variable GPT35_name : string.
Variable GPT35_16k_name : string.
Variable commit_system : string.

(** The message step of [commit]: the explicit message when it is truthy,
    the generation path otherwise. *)
Definition message_step (context message : option string)
  : M (World G L) (option string) :=
  if Py.truthy_opt message then ret message
  else (diffs <- get_diffs false [] ;;
        get_commit_message GPT35_name GPT35_16k_name commit_system diffs context).

(** The notice of line 91. *)
Definition too_large_notice : string :=
  "Diff is too large for " +:+ GPT35_name +:+ " to generate a commit message.".

End Vocabulary.

(** ** Fixtures for the other methods *)

Module MoreFixtures.

Import Fixtures.

(** The branch of the toy repository has its head commit, or none. *)
#[export] Instance toy_history : BranchHistory ToyRepo := {
  repo_iter_commits g :=
    match toy_head g with
    | Some c => Some [c]
    | None => None
    end
}.

(** A dirty tree on top of the commit of the fixture. *)
Definition edited_repo (diff : string) : ToyRepo :=
  {| toy_dirty := true; toy_diff := diff; toy_head := Some toy_commit |}.

(** Paths are resolved against [/home/u/proj]. *)
Definition toy_resolve (fname : string) : string := "/home/u/proj/" +:+ fname.

Abbreviation toy_add_new_files :=
  (add_new_files (G := ToyRepo) (L := list SendOutcome) "/" toy_resolve).
(** What [dump] prints for the flag. *)
Definition toy_dump (flag : bool) : string :=
  "current_branch_has_commits: " +:+ (if flag then "True" else "False").

Abbreviation toy_show_diffs :=
  (show_diffs (G := ToyRepo) (L := list SendOutcome) toy_dump).

End MoreFixtures.

(** ** Vocabulary for the other methods *)

(** Whether a string holds a slash. *)
Fixpoint has_slash (s : string) : bool :=
  match s with
  | EmptyString => false
  | String c r => Ascii.eqb c "/"%char || has_slash r
  end.

Definition add_call (fname : string) : GitCall :=
  {| command := "add"; arguments := [fname] |}.

Definition adding_notice (fname : string) : IoEvent :=
  tool_output ("Adding " +:+ fname +:+ " to git").

(** The names [add_new_files] stages: those whose resolved path is not
    among the resolved tracked files. *)
Definition to_stage (resolve : string -> string) (tracked : list string)
  (fnames : list string) : list string :=
  List.filter
    (fun fname => negb (bool_decide (resolve fname ∈ List.map resolve tracked)))
    fnames.

(** ** Strings: facts used below *)

Lemma length_append (a b : string) :
  String.length (a +:+ b) = (String.length a + String.length b)%nat.
Proof. induction a as [|c a IH]; simpl; [reflexivity | now rewrite IH]. Qed.

Lemma get_last (b : string) (c : ascii) :
  String.get (String.length b) (b +:+ String c EmptyString) = Some c.
Proof. induction b as [|d b IH]; simpl; [reflexivity | exact IH]. Qed.

Lemma substring_prefix (b r : string) :
  String.substring 0 (String.length b) (b +:+ r) = b.
Proof.
  induction b as [|d b IH]; simpl.
  - destruct r; reflexivity.
  - now rewrite IH.
Qed.

Lemma append_nonempty_l (a b : string) : a <> EmptyString -> a +:+ b <> EmptyString.
Proof. intros Ha. destruct a; [congruence | discriminate]. Qed.

Lemma append_nonempty_r (a b : string) : b <> EmptyString -> a +:+ b <> EmptyString.
Proof. intros Hb. destruct a; [exact Hb | discriminate]. Qed.

(** ** Properties of the methods *)

Section Properties.

Context {G L : Type} `{VersionControl G} `{TextGeneration L}.
Variable GPT35_name : string.
Variable GPT35_16k_name : string.
Variable commit_system : string.

Abbreviation W := (World G L).
Abbreviation commit' := (commit GPT35_name GPT35_16k_name commit_system).
Abbreviation get_commit_message' :=
  (get_commit_message GPT35_name GPT35_16k_name commit_system).
Abbreviation message_step' :=
  (message_step GPT35_name GPT35_16k_name commit_system).
Abbreviation too_large_notice' := (too_large_notice GPT35_name).

(** Finishes an unfolding of [commit] by cases on the prefix and the
    context. *)
Ltac commit_tail pre ctx :=
  unfold record_commit, bind, subject_line, full_message;
  destruct pre as [[|? ?]|], ctx as [[|? ?]|]; reflexivity.

(** On a dirty tree [commit] is the message step followed by the
    recording of the commit. *)
Lemma commit_dirty (ctx prefix message : option string) (w : W) :
  repo_is_dirty (repo w) = true ->
  commit' ctx prefix message w =
  bind (message_step' ctx message)
       (fun produced =>
          record_commit (subject_line produced prefix)
                        (full_message (subject_line produced prefix) ctx)) w.
Proof.
  intros Hd. unfold commit, message_step, bind, is_dirty, ret.
  rewrite Hd. cbn [negb].
  destruct (Py.truthy_opt message).
  - destruct message as [[|c0 r0]|]; commit_tail prefix ctx.
  - destruct (get_diffs false [] w) as [[d|e] w1]; [|reflexivity].
    destruct (get_commit_message' d ctx w1) as [[[[|c0 r0]|]|e] w'];
      try reflexivity; commit_tail prefix ctx.
Qed.

(** *** Frames: what each step leaves alone *)

Lemma get_diffs_default (w : W) :
  get_diffs false [] w = git "diff" ["HEAD"] w.
Proof. reflexivity. Qed.

Lemma git_frame (cmd : string) (args : list string) (w : W) :
  let w' := snd (git cmd args w) in
  service w' = service w /\ requests w' = requests w /\ io w' = io w /\
  git_calls w' = git_calls w ++ [{| command := cmd; arguments := args |}].
Proof.
  unfold git. destruct (repo_git cmd args (repo w)) as [out g]. simpl. auto.
Qed.

(** Every request of the loop names [GPT35_name]; there are at most as many
    requests as list entries, and nothing but the service is touched. *)
Lemma try_models_frame (msgs : list Message) (models : list string) (w : W) :
  let w' := snd (try_models GPT35_name msgs models w) in
  repo w' = repo w /\ git_calls w' = git_calls w /\ io w' = io w /\
  exists n, (n <= length models)%nat /\
    requests w' = requests w ++ replicate n {| model := GPT35_name; messages := msgs |}.
Proof.
  revert w. induction models as [|m rest IH]; intros w; simpl.
  - repeat split; try reflexivity. exists 0%nat. split; [lia|]. simpl. now rewrite app_nil_r.
  - unfold bind, send.
    destruct (send_with_retries GPT35_name msgs (service w)) as [r l].
    set (w1 := {| repo := repo w; service := l; git_calls := git_calls w;
                  requests := requests w ++ [{| model := GPT35_name; messages := msgs |}];
                  io := io w |}).
    assert (Hone : requests w1 = requests w ++ replicate 1 {| model := GPT35_name; messages := msgs |})
      by reflexivity.
    assert (Hmore : forall w2, w2 = snd (try_models GPT35_name msgs rest w1) ->
      repo w2 = repo w /\ git_calls w2 = git_calls w /\ io w2 = io w /\
      exists n, (n <= S (length rest))%nat /\
        requests w2 = requests w ++ replicate n {| model := GPT35_name; messages := msgs |}).
    { intros w2 ->. destruct (IH w1) as (Hr & Hg & Hi & n & Hn & Hq).
      repeat split; [exact Hr | exact Hg | exact Hi |].
      exists (S n). split; [lia|]. rewrite Hq. simpl. now rewrite <- app_assoc. }
    destruct r as [c| | |]; simpl.
    + repeat split; try reflexivity. exists 1%nat. split; [lia|exact Hone].
    + now apply Hmore.
    + now apply Hmore.
    + repeat split; try reflexivity. exists 1%nat. split; [lia|exact Hone].
Qed.

(** The loop always starts with a request when it has a model to try. *)
Lemma try_models_first (msgs : list Message) (m : string) (rest : list string) (w : W) :
  exists more,
    requests (snd (try_models GPT35_name msgs (m :: rest) w)) =
    requests w ++ {| model := GPT35_name; messages := msgs |} :: more.
Proof.
  simpl. unfold bind, send.
  destruct (send_with_retries GPT35_name msgs (service w)) as [r l].
  set (w1 := {| repo := repo w; service := l; git_calls := git_calls w;
                requests := requests w ++ [{| model := GPT35_name; messages := msgs |}];
                io := io w |}).
  assert (Hmore : exists more,
    requests (snd (try_models GPT35_name msgs rest w1)) =
    requests w ++ {| model := GPT35_name; messages := msgs |} :: more).
  { destruct (try_models_frame msgs rest w1) as (_ & _ & _ & k & _ & Hk).
    simpl in Hk. rewrite Hk, <- app_assoc. simpl. eauto. }
  destruct r as [c| | |]; simpl; try exact Hmore; exists []; reflexivity.
Qed.

(** Generation never touches the repository and issues no git command. *)
Lemma get_commit_message_frame (diffs : string) (ctx : option string) (w : W) :
  let w' := snd (get_commit_message' diffs ctx w) in
  repo w' = repo w /\ git_calls w' = git_calls w.
Proof.
  unfold get_commit_message.
  destruct (4 * 1024 * 4 <=? Py.len diffs)%Z.
  - simpl. auto.
  - unfold bind.
    pose proof (try_models_frame (prompt_messages commit_system diffs ctx)
                  [GPT35_name; GPT35_16k_name] w) as Hf.
    destruct (try_models GPT35_name (prompt_messages commit_system diffs ctx)
                [GPT35_name; GPT35_16k_name] w) as [[[[|c r]|]|e] w1];
      simpl in Hf |- *; destruct Hf as (Hr & Hg & _); auto.
Qed.

(** *** Committing on a clean tree *)

(** C2. On a clean working tree [commit], whatever its arguments, returns
    [None] and leaves the world as it found it: no git command is issued
    (so no commit), the repository is unchanged, no request is sent and
    nothing is told to the user. *)
Theorem commit_clean_is_noop (ctx prefix message : option string) (w : W) :
  repo_is_dirty (repo w) = false ->
  commit GPT35_name GPT35_16k_name commit_system ctx prefix message w
  = (Return None, w).
Proof.
  intros Hclean. unfold commit, bind, is_dirty. rewrite Hclean. reflexivity.
Qed.

(** *** The size bound of [get_commit_message] *)

(** A diff of 4*4096 characters or more: one error notice, no request, no
    message. *)
Lemma generation_rejects_large (diffs : string) (ctx : option string) (w : W) :
  (4 * 4096 <= Py.len diffs)%Z ->
  get_commit_message' diffs ctx w =
  (Return None,
   {| repo := repo w; service := service w; git_calls := git_calls w;
      requests := requests w;
      io := io w ++ [tool_error too_large_notice'] |}).
Proof.
  intros Hlen. unfold get_commit_message.
  destruct (Z.leb_spec (4 * 1024 * 4) (Py.len diffs)) as [_|Hlt]; [reflexivity | lia].
Qed.

(** A shorter diff: the prompt is composed and submitted, and the only
    notice there can be is that of a failed generation. *)
Lemma generation_accepts_small (diffs : string) (ctx : option string) (w : W) :
  (Py.len diffs < 4 * 4096)%Z ->
  let r := get_commit_message' diffs ctx w in
  (exists more,
     requests (snd r) =
     requests w ++ {| model := GPT35_name;
                      messages := prompt_messages commit_system diffs ctx |} :: more)
  /\ (io (snd r) = io w
      \/ io (snd r) = io w ++ [tool_error "Failed to generate commit message!"]).
Proof.
  intros Hlen r. subst r. unfold get_commit_message.
  destruct (Z.leb_spec (4 * 1024 * 4) (Py.len diffs)) as [Hge|_]; [lia|].
  unfold bind.
  destruct (try_models_first (prompt_messages commit_system diffs ctx)
              GPT35_name [GPT35_16k_name] w) as [more Hq].
  destruct (try_models_frame (prompt_messages commit_system diffs ctx)
              [GPT35_name; GPT35_16k_name] w) as (_ & _ & Hio & _).
  destruct (try_models GPT35_name (prompt_messages commit_system diffs ctx)
              [GPT35_name; GPT35_16k_name] w) as [[[[|c r]|]|e] w1];
    simpl in Hq, Hio |- *; rewrite Hio; (split; [exists more; exact Hq | auto]).
Qed.

(** C3, amended. A diff text shorter than 4*4096 characters is accepted:
    the prompt is composed from it and submitted, and no notice about its
    size is given.  A diff text of 4*4096 characters or more, the length
    4*4096 itself included, is refused with the notice that the diff is
    too large, nothing is submitted and no message is returned. *)
Theorem diff_size_bound (diffs : string) (ctx : option string) (w : W) :
  let r := get_commit_message GPT35_name GPT35_16k_name commit_system diffs ctx w in
  ((Py.len diffs < 4 * 4096)%Z ->
   (exists more,
      requests (snd r) =
      requests w ++ {| model := GPT35_name;
                       messages := prompt_messages commit_system diffs ctx |} :: more)
   /\ (io (snd r) = io w
       \/ io (snd r) = io w ++ [tool_error "Failed to generate commit message!"]))
  /\
  ((4 * 4096 <= Py.len diffs)%Z ->
   r = (Return None,
        {| repo := repo w; service := service w; git_calls := git_calls w;
           requests := requests w;
           io := io w ++ [tool_error too_large_notice'] |})).
Proof.
  split; [apply generation_accepts_small | apply generation_rejects_large].
Qed.

(** *** The arguments of [git diff] *)

(** C4. Without explicit arguments, [get_diffs False] runs [git diff HEAD],
    but [get_diffs True] runs [git diff --color]: the default reference
    [HEAD] is only filled in when the argument list is still empty, and
    the coloring flag has already been put in it. *)
Theorem get_diffs_pretty_drops_HEAD (w : W) :
  git_calls (snd (get_diffs false [] w)) = git_calls w ++ [diff_call ["HEAD"]]
  /\ git_calls (snd (get_diffs true [] w)) = git_calls w ++ [diff_call ["--color"]]
  /\ ~ In "HEAD" (arguments (diff_call ["--color"])).
Proof.
  repeat split.
  - unfold get_diffs. apply git_frame.
  - unfold get_diffs. apply git_frame.
  - simpl. intros [Hx|[]]. discriminate.
Qed.

(** *** The models tried *)

(** When the first request is rejected, the second one is made, and it
    names the same model as the first. *)
Lemma rejected_then_same_model (msgs : list Message) (w : W) (l1 : L) :
  send_with_retries GPT35_name msgs (service w) = (InvalidRequestError, l1) ->
  requests (snd (try_models GPT35_name msgs [GPT35_name; GPT35_16k_name] w)) =
  requests w ++ [ {| model := GPT35_name; messages := msgs |};
                  {| model := GPT35_name; messages := msgs |} ].
Proof.
  intros Hrej. simpl. unfold bind, send. rewrite Hrej. simpl.
  destruct (send_with_retries GPT35_name msgs l1) as [[c| | |] l2]; simpl;
    now rewrite <- app_assoc.
Qed.

(** *** The fallback message *)

(** [record_commit] issues the one [git commit]; when that command
    succeeds and the head commit can be read, it tells the user and
    returns the short hash with the subject line. *)
Lemma record_commit_spec (subject full : string) (w : W) :
  let r := record_commit subject full w in
  git_calls (snd r) = git_calls w ++ [commit_call full]
  /\ requests (snd r) = requests w
  /\ service (snd r) = service w
  /\ (forall out g c,
        repo_git "commit" ["-a"; "-m"; full; "--no-verify"] (repo w) = (Some out, g) ->
        repo_head_commit g = Some c ->
        fst r = Return (Some (Py.slice_to (hexsha c) 7, subject))
        /\ repo (snd r) = g
        /\ io (snd r) =
           io w ++ [tool_output ("Commit " +:+ Py.slice_to (hexsha c) 7
                                 +:+ " " +:+ subject)]).
Proof.
  unfold record_commit, bind, git.
  destruct (repo_git "commit" ["-a"; "-m"; full; "--no-verify"] (repo w))
    as [[out|] g]; simpl.
  - destruct (repo_head_commit g) as [c|] eqn:Hhead; simpl;
      (split; [reflexivity|]; split; [reflexivity|]; split; [reflexivity|]);
      intros out' g' c' Heq Hc'; injection Heq as _ <-;
      rewrite Hhead in Hc'; [injection Hc' as <-; auto | discriminate].
  - split; [reflexivity|]. split; [reflexivity|]. split; [reflexivity|].
    intros out' g' c' Heq. discriminate.
Qed.

Lemma subject_line_unusable (produced prefix : option string) :
  Py.truthy_opt produced = false ->
  subject_line produced prefix =
  if Py.truthy_opt prefix then default EmptyString prefix +:+ placeholder
  else placeholder.
Proof. intros Hp. unfold subject_line. now rewrite Hp. Qed.

(** The causes of an unusable result. *)
Lemma generation_all_attempts_fail (diffs : string) (ctx : option string)
  (w : W) (o1 o2 : SendOutcome) (l1 l2 : L) :
  (Py.len diffs < 4 * 4096)%Z ->
  send_with_retries GPT35_name (prompt_messages commit_system diffs ctx) (service w)
    = (o1, l1) ->
  send_with_retries GPT35_name (prompt_messages commit_system diffs ctx) l1
    = (o2, l2) ->
  o1 = AttributeError \/ o1 = InvalidRequestError ->
  o2 = AttributeError \/ o2 = InvalidRequestError ->
  fst (get_commit_message' diffs ctx w) = Return None.
Proof.
  intros Hlen H1 H2 Hf1 Hf2. unfold get_commit_message.
  destruct (Z.leb_spec (4 * 1024 * 4) (Py.len diffs)) as [Hge|_]; [lia|].
  unfold bind. simpl. unfold bind, send. rewrite H1.
  destruct Hf1 as [-> | ->]; simpl; rewrite H2;
    destruct Hf2 as [-> | ->]; reflexivity.
Qed.

Lemma generation_unusable_reply (diffs : string) (ctx : option string)
  (w : W) (c : option string) (l1 : L) :
  (Py.len diffs < 4 * 4096)%Z ->
  send_with_retries GPT35_name (prompt_messages commit_system diffs ctx) (service w)
    = (Completion c, l1) ->
  Py.truthy_opt c = false ->
  fst (get_commit_message' diffs ctx w) = Return None.
Proof.
  intros Hlen H1 Hc. unfold get_commit_message.
  destruct (Z.leb_spec (4 * 1024 * 4) (Py.len diffs)) as [Hge|_]; [lia|].
  unfold bind. simpl. unfold bind, send. rewrite H1. simpl.
  destruct c as [[|a r]|]; [reflexivity | discriminate | reflexivity].
Qed.

(** An attempt that fails with an exception the [except] clause does not
    name ends [get_commit_message] with that exception. *)
Lemma generation_uncaught (diffs : string) (ctx : option string) (w : W) (l1 : L) :
  (Py.len diffs < 4 * 4096)%Z ->
  send_with_retries GPT35_name (prompt_messages commit_system diffs ctx) (service w)
    = (OtherError, l1) ->
  fst (get_commit_message' diffs ctx w) = Raise UncaughtError.
Proof.
  intros Hlen H1. unfold get_commit_message.
  destruct (Z.leb_spec (4 * 1024 * 4) (Py.len diffs)) as [Hge|_]; [lia|].
  unfold bind. simpl. unfold bind, send. rewrite H1. reflexivity.
Qed.


(** *** Explicit and empty messages *)

Lemma subject_line_nonempty (produced prefix : option string) :
  subject_line produced prefix <> EmptyString.
Proof.
  unfold subject_line.
  assert (Hbase : (if Py.truthy_opt produced then default EmptyString produced
                   else placeholder) <> EmptyString).
  { destruct produced as [[|c r]|]; simpl; discriminate. }
  destruct prefix as [[|c r]|]; simpl; try exact Hbase. discriminate.
Qed.

Lemma full_message_nonempty (subject : string) (ctx : option string) :
  subject <> EmptyString -> full_message subject ctx <> EmptyString.
Proof.
  intros Hs. unfold full_message.
  destruct (Py.truthy_opt ctx); [now apply append_nonempty_l | exact Hs].
Qed.

(** A non-empty explicit message: [commit] goes straight to recording. *)
Lemma commit_explicit (ctx prefix : option string) (m : string) (w : W) :
  repo_is_dirty (repo w) = true ->
  m <> EmptyString ->
  commit' ctx prefix (Some m) w =
  record_commit (subject_line (Some m) prefix)
                (full_message (subject_line (Some m) prefix) ctx) w.
Proof.
  intros Hd Hm. rewrite (commit_dirty ctx prefix (Some m) w Hd).
  unfold message_step. destruct m as [|c r]; [congruence | reflexivity].
Qed.

(** C10. On a dirty tree an explicit message that is the empty string is
    treated as no message: [commit] does what it does for [None], that
    is, it computes the diff against [HEAD], hands it to
    [get_commit_message] and records the commit with what comes of it.
    Its first git command is [git diff HEAD]; a [git commit] can only
    follow it, and neither the subject line nor the text given to
    [git commit -m] is ever the empty string. *)
Theorem commit_empty_message_is_no_message (ctx prefix : option string) (w : W) :
  repo_is_dirty (repo w) = true ->
  let r := commit GPT35_name GPT35_16k_name commit_system
             ctx prefix (Some EmptyString) w in
  r = commit GPT35_name GPT35_16k_name commit_system ctx prefix None w
  /\ r = bind (get_diffs false [])
           (fun diffs =>
              bind (get_commit_message GPT35_name GPT35_16k_name commit_system
                      diffs ctx)
                (fun produced =>
                   record_commit (subject_line produced prefix)
                     (full_message (subject_line produced prefix) ctx))) w
  /\ (forall produced,
        subject_line produced prefix <> EmptyString
        /\ full_message (subject_line produced prefix) ctx <> EmptyString)
  /\ (exists more,
        git_calls (snd r) = git_calls w ++ diff_call ["HEAD"] :: more
        /\ (more = []
            \/ exists full, more = [commit_call full] /\ full <> EmptyString)).
Proof.
  intros Hd r. subst r.
  split; [rewrite !(commit_dirty ctx prefix _ w Hd); reflexivity|].
  split.
  { rewrite (commit_dirty ctx prefix _ w Hd). unfold message_step, bind.
    change (Py.truthy_opt (Some EmptyString)) with false. cbv beta iota.
    destruct (get_diffs false [] w) as [[d|e] w1]; [|reflexivity].
    destruct (get_commit_message' d ctx w1) as [[produced|e] w2]; reflexivity. }
  split.
  { intros produced. split; [apply subject_line_nonempty|].
    apply full_message_nonempty, subject_line_nonempty. }
  rewrite (commit_dirty ctx prefix _ w Hd). unfold message_step, bind.
  change (Py.truthy_opt (Some EmptyString)) with false. cbv beta iota.
  pose proof (git_frame "diff" ["HEAD"] w) as Hdiff.
  rewrite <- get_diffs_default in Hdiff.
  destruct (get_diffs false [] w) as [[d|e] w1]; simpl in Hdiff;
    destruct Hdiff as (_ & _ & _ & Hcalls1).
  - pose proof (get_commit_message_frame d ctx w1) as Hgen.
    destruct (get_commit_message' d ctx w1) as [[produced|e] w2]; simpl in Hgen;
      destruct Hgen as (_ & Hcalls2).
    + exists [commit_call (full_message (subject_line produced prefix) ctx)].
      split.
      * destruct (record_commit_spec (subject_line produced prefix)
                    (full_message (subject_line produced prefix) ctx) w2) as (Hc & _).
        rewrite Hc, Hcalls2, Hcalls1, <- app_assoc. reflexivity.
      * right. eexists. split; [reflexivity|].
        apply full_message_nonempty, subject_line_nonempty.
    + exists []. simpl. rewrite Hcalls2. auto.
  - exists []. simpl. auto.
Qed.

(** *** Post-processing of a reply *)

Lemma index_first (c : ascii) (r : string) : Py.index (String c r) 0 = Some c.
Proof. reflexivity. Qed.

Lemma index_last (b : string) (c : ascii) :
  Py.index (b +:+ String c EmptyString) (-1) = Some c.
Proof.
  unfold Py.index, Py.len. rewrite length_append. simpl String.length.
  change (-1 <? 0)%Z with true. cbv iota.
  destruct (Z.ltb_spec (-1 + Z.of_nat (String.length b + 1)) 0) as [Hneg|_]; [lia|].
  replace (Z.to_nat (-1 + Z.of_nat (String.length b + 1))) with (String.length b) by lia.
  apply get_last.
Qed.

Lemma index_last_cons (q : ascii) (b : string) (c : ascii) :
  Py.index (String q (b +:+ String c EmptyString)) (-1) = Some c.
Proof. exact (index_last (String q b) c). Qed.

Lemma slice_inner (q1 q2 : ascii) (body : string) :
  Py.slice (String q1 (body +:+ String q2 EmptyString)) 1 (-1) = body.
Proof.
  unfold Py.slice, Py.clamp, Py.len. simpl String.length. rewrite length_append.
  simpl String.length.
  change (1 <? 0)%Z with false. change (-1 <? 0)%Z with true. cbv iota.
  set (n := String.length body).
  replace (Z.max 0 (Z.min 1 (Z.of_nat (S (n + 1))))) with 1%Z by lia.
  replace (Z.max 0 (Z.min (-1 + Z.of_nat (S (n + 1))) (Z.of_nat (S (n + 1)))))
    with (Z.of_nat (n + 1)) by lia.
  replace (Z.to_nat (Z.of_nat (n + 1) - 1)) with n by lia.
  change (Z.to_nat 1) with 1%nat. simpl String.substring.
  apply substring_prefix.
Qed.

(** C7. [postprocess] trims whitespace.  When the trimmed text is some
    [body] between two double quotes, the result is [body] without that
    one pair of quotes, trimmed; quotes inside [body] stay.  When the
    trimmed text does not both start and end with a double quote, the
    result is the trimmed text itself. *)
Theorem postprocess_strips_one_quote_layer (s : string) :
  (forall body,
     Py.strip s = String dquote (body +:+ String dquote EmptyString) ->
     postprocess s = Py.strip body)
  /\
  (~ (Py.index (Py.strip s) 0 = Some dquote
      /\ Py.index (Py.strip s) (-1) = Some dquote) ->
   postprocess s = Py.strip s).
Proof.
  split.
  - intros body Hs. unfold postprocess. rewrite Hs.
    rewrite index_first, index_last_cons.
    rewrite !bool_decide_eq_true_2 by reflexivity.
    simpl. now rewrite slice_inner.
  - intros Hnot. unfold postprocess.
    destruct (Py.truthy (Py.strip s)); [|reflexivity]. simpl.
    destruct (bool_decide_reflect (Py.index (Py.strip s) 0 = Some dquote)) as [H0'|H0'];
      [|reflexivity].
    destruct (bool_decide_reflect (Py.index (Py.strip s) (-1) = Some dquote)) as [H1'|H1'];
      [|reflexivity].
    exfalso. apply Hnot. split; assumption.
Qed.

(** A non-empty first reply is returned post-processed. *)
Lemma generation_postprocesses_reply (diffs : string) (ctx : option string)
  (w : W) (c : ascii) (r : string) (l1 : L) :
  (Py.len diffs < 4 * 4096)%Z ->
  send_with_retries GPT35_name (prompt_messages commit_system diffs ctx) (service w)
    = (Completion (Some (String c r)), l1) ->
  fst (get_commit_message' diffs ctx w) = Return (Some (postprocess (String c r))).
Proof.
  intros Hlen H1. unfold get_commit_message.
  destruct (Z.leb_spec (4 * 1024 * 4) (Py.len diffs)) as [Hge|_]; [lia|].
  unfold bind. simpl. unfold bind, send. rewrite H1. reflexivity.
Qed.

End Properties.

(** ** Tracked files *)

Section TrackedFiles.

Context {G : Type} `{VersionControl G}.
Variable os_sep : string.

Lemma collect_blobs_spec (entries : list TreeEntry) (files : list string) :
  collect_blobs entries files =
  files ++ List.map path (List.filter (fun e => ObjType_eqb (type e) blob) entries).
Proof.
  revert files. induction entries as [|e rest IH]; intros files; simpl.
  - now rewrite app_nil_r.
  - destruct (ObjType_eqb (type e) blob); rewrite IH; simpl; [|reflexivity].
    now rewrite <- app_assoc.
Qed.

Lemma ObjType_eqb_blob (t : ObjType) : ObjType_eqb t blob = true <-> t = blob.
Proof. destruct t; simpl; split; intros; congruence. Qed.

Lemma split_slash_nonempty (p : string) : split_slash p <> [].
Proof.
  destruct p as [|c r]; simpl; [discriminate|].
  destruct (Ascii.eqb c "/"); [discriminate|].
  destruct (split_slash r); discriminate.
Qed.

Lemma concat_cons (sep : string) (c : ascii) (h : string) (t : list string) :
  String.concat sep (String c h :: t) = String c (String.concat sep (h :: t)).
Proof. destruct t; reflexivity. Qed.

Lemma concat_split_slash (sep p : string) :
  String.concat sep (split_slash p) = replace_slash sep p.
Proof.
  induction p as [|c r IH]; simpl; [reflexivity|].
  destruct (Ascii.eqb c "/").
  - pose proof (split_slash_nonempty r) as Hne.
    destruct (split_slash r) as [|h t]; [congruence|].
    rewrite <- IH. reflexivity.
  - pose proof (split_slash_nonempty r) as Hne.
    destruct (split_slash r) as [|h t]; [congruence|].
    rewrite concat_cons, IH. reflexivity.
Qed.

Lemma filter_all_kept (parts : list string) :
  Forall (fun part => kept_part part = true) parts ->
  List.filter kept_part parts = parts.
Proof.
  induction 1 as [|x l Hx _ IH]; simpl; [reflexivity|]. now rewrite Hx, IH.
Qed.

(** On a path as git stores it, the conversion only changes the
    separators. *)
Lemma os_path_git_path (p : string) :
  git_path p -> os_path os_sep p = replace_slash os_sep p.
Proof.
  intros Hp. unfold os_path, posix_parts. rewrite (filter_all_kept _ Hp).
  pose proof (split_slash_nonempty p) as Hne.
  rewrite <- concat_split_slash.
  destruct (split_slash p); [congruence | reflexivity].
Qed.

(** C8. With no commit yet, [get_tracked_files] returns the empty set.
    With a head commit it returns a set whose members are exactly the
    paths of the blob entries of that commit's tree, each converted to the
    host form; on a path as git stores it the conversion replaces every
    slash by the host separator and changes nothing else. *)
Theorem get_tracked_files_spec (g : G) :
  (repo_head_commit g = None -> get_tracked_files os_sep (Some g) = PySet ∅)
  /\
  (forall c, repo_head_commit g = Some c ->
     exists s, get_tracked_files os_sep (Some g) = PySet s
       /\ (forall p, p ∈ s <->
             exists e, In e (traverse c) /\ type e = blob
                       /\ p = os_path os_sep (path e))
       /\ (forall e, In e (traverse c) -> git_path (path e) ->
             os_path os_sep (path e) = replace_slash os_sep (path e))).
Proof.
  split.
  - intros Hnone. unfold get_tracked_files. now rewrite Hnone.
  - intros c Hc. unfold get_tracked_files. rewrite Hc.
    eexists. split; [reflexivity|]. split.
    + intros p. rewrite elem_of_list_to_set, list_elem_of_In, in_map_iff.
      rewrite collect_blobs_spec. simpl. split.
      * intros (q & Hq & Hin). apply in_map_iff in Hin as (e & He & Hin).
        apply filter_In in Hin as (Hin & Hty). apply ObjType_eqb_blob in Hty.
        exists e. subst. auto.
      * intros (e & Hin & Hty & Hp). exists (path e). split; [now subst|].
        apply in_map_iff. exists e. split; [reflexivity|].
        apply filter_In. split; [exact Hin|]. now apply ObjType_eqb_blob.
    + intros e _ Hp. now apply os_path_git_path.
Qed.

End TrackedFiles.

(** ** Construction *)

Section InitProperties.

Variable resolve : string -> string.
Variable working_dir : string -> Lookup.
Variable safe_abs_path : string -> string.
Variable working_tree_dir : string -> string.

Abbreviation find' := (find_repo_path resolve working_dir safe_abs_path).
Abbreviation collect' := (collect_repo_paths resolve working_dir safe_abs_path).
Abbreviation init' := (init resolve working_dir safe_abs_path working_tree_dir).

(** The only exception of the [try] is [NoSuchPathError]. *)
Lemma find_repo_path_raises (f : string) (e : Exn) :
  find' f = Raise e -> e = NoSuchPathError.
Proof.
  unfold find_repo_path. destruct (working_dir (resolve f)); congruence.
Qed.

(** The loop raises iff some candidate does not exist; otherwise it
    collects the roots of the candidates that lie in a repository. *)
Lemma collect_repo_paths_spec (fs acc : list string) :
  match collect' fs acc with
  | Return paths =>
      (forall f, In f fs -> find' f <> Raise NoSuchPathError)
      /\ (forall r, In r paths <->
                    In r acc \/ exists f, In f fs /\ find' f = Return (Some r))
  | Raise e =>
      e = NoSuchPathError /\ exists f, In f fs /\ find' f = Raise NoSuchPathError
  end.
Proof.
  revert acc. induction fs as [|f rest IH]; intros acc; simpl.
  - split; [intros f [] |]. intros r. split; [auto | intros [Hx|(f & [] & _)]; exact Hx].
  - destruct (find' f) as [[q|]|e] eqn:Hf.
    + specialize (IH (acc ++ [q])).
      destruct (collect' rest (acc ++ [q])) as [paths|e].
      * destruct IH as (Hex & Hin). split.
        { intros f' [<-|Hf']; [congruence | now apply Hex]. }
        intros r. rewrite Hin, in_app_iff. simpl. split.
        { intros [[Hx|[Hx|[]]]|(f' & Hin' & Hf')]; subst; eauto 6. }
        { intros [Hx|(f' & [Hx|Hin'] & Hf')]; subst; eauto.
          left. right. left. congruence. }
      * destruct IH as (He & f' & Hin' & Hf'). split; [exact He|]. eauto.
    + specialize (IH acc). destruct (collect' rest acc) as [paths|e].
      * destruct IH as (Hex & Hin). split.
        { intros f' [<-|Hf']; [congruence | now apply Hex]. }
        intros r. rewrite Hin. split.
        { intros [Hx|(f' & Hin' & Hf')]; eauto. }
        { intros [Hx|(f' & [Hx|Hin'] & Hf')]; subst; eauto. congruence. }
      * destruct IH as (He & f' & Hin' & Hf'). split; [exact He|]. eauto.
    + pose proof (find_repo_path_raises f e Hf) as ->. split; [reflexivity|]. eauto.
Qed.

Lemma last_nonempty {A : Type} (l : list A) : l <> [] -> exists x, last l = Some x.
Proof.
  induction l as [|a l IH]; [congruence|]. intros _.
  destruct l as [|b l]; [exists a; reflexivity|].
  destruct IH as [x Hx]; [discriminate|]. exists x. exact Hx.
Qed.

(** How the count of distinct roots comes out. *)
Lemma num_repos_many (paths : list string) (r1 r2 : string) :
  In r1 paths -> In r2 paths -> r1 <> r2 ->
  (1 < size (list_to_set paths : gset string))%nat.
Proof.
  intros H1 H2 Hne.
  assert (Hx1 : r1 ∈ (list_to_set paths : gset string))
    by now apply elem_of_list_to_set, list_elem_of_In.
  assert (Hx2 : r2 ∈ (list_to_set paths : gset string))
    by now apply elem_of_list_to_set, list_elem_of_In.
  destruct (size (list_to_set paths : gset string)) as [|[|n]] eqn:Hs; [| |lia].
  - apply size_empty_iff in Hs. rewrite Hs in Hx1. set_solver.
  - exfalso. apply Hne. exact (size_singleton_inv _ _ _ Hs Hx1 Hx2).
Qed.

Lemma num_repos_one (paths : list string) (r : string) :
  In r paths -> (forall r', In r' paths -> r' = r) ->
  size (list_to_set paths : gset string) = 1%nat.
Proof.
  intros Hin Hall.
  assert (Heq : (list_to_set paths : gset string) = {[ r ]}).
  { apply set_eq. intros x. rewrite elem_of_list_to_set, list_elem_of_In, elem_of_singleton.
    split; [apply Hall | now intros ->]. }
  rewrite Heq. apply size_singleton.
Qed.


End InitProperties.

(** ** Independence of the service *)

(** [record_commit] on two worlds that differ only in the service. *)
Lemma record_commit_outside {G L1 L2 : Type} `{VersionControl G}
  (subject full : string) (w1 : World G L1) (w2 : World G L2) :
  outside_service w1 = outside_service w2 ->
  fst (record_commit subject full w1) = fst (record_commit subject full w2)
  /\ outside_service (snd (record_commit subject full w1))
     = outside_service (snd (record_commit subject full w2)).
Proof.
  unfold outside_service. intros Hout. injection Hout as Hrepo Hcalls Hio.
  unfold record_commit, bind, git, io_tool_output, ret. rewrite Hrepo, Hcalls, Hio.
  destruct (repo_git "commit" ["-a"; "-m"; full; "--no-verify"] (repo w2))
    as [[out|] g]; simpl; [|auto].
  destruct (repo_head_commit g); simpl; auto.
Qed.

(** C9, amended. On a dirty tree, with an explicit message that is not the
    empty string, [commit] does not take the generation path: the only git
    command it issues is the commit (no diff), it sends no request and
    leaves the service as it was; so its result, and what it does to the
    repository and tells the user, are the same whatever the service and
    its state. *)
Theorem commit_explicit_message_skips_generation
  {G L1 L2 : Type} `{VersionControl G}
  (TG1 : TextGeneration L1) (TG2 : TextGeneration L2)
  (GPT35_name GPT35_16k_name commit_system : string)
  (ctx prefix : option string) (m : string)
  (w1 : World G L1) (w2 : World G L2) :
  repo_is_dirty (repo w1) = true ->
  m <> EmptyString ->
  outside_service w1 = outside_service w2 ->
  let r1 := commit GPT35_name GPT35_16k_name commit_system ctx prefix (Some m) w1 in
  let r2 := commit GPT35_name GPT35_16k_name commit_system ctx prefix (Some m) w2 in
  requests (snd r1) = requests w1
  /\ service (snd r1) = service w1
  /\ git_calls (snd r1) =
     git_calls w1 ++ [commit_call (full_message (subject_line (Some m) prefix) ctx)]
  /\ fst r1 = fst r2
  /\ outside_service (snd r1) = outside_service (snd r2).
Proof.
  intros Hd Hm Hout r1 r2. subst r1 r2.
  assert (Hd2 : repo_is_dirty (repo w2) = true).
  { unfold outside_service in Hout. injection Hout as Hrepo _ _. now rewrite <- Hrepo. }
  rewrite (commit_explicit GPT35_name GPT35_16k_name commit_system ctx prefix m w1 Hd Hm).
  rewrite (commit_explicit GPT35_name GPT35_16k_name commit_system ctx prefix m w2 Hd2 Hm).
  destruct (record_commit_spec (subject_line (Some m) prefix)
              (full_message (subject_line (Some m) prefix) ctx) w1)
    as (Hcalls & Hreq & Hsvc & _).
  destruct (record_commit_outside (subject_line (Some m) prefix)
              (full_message (subject_line (Some m) prefix) ctx) w1 w2 Hout)
    as (Hres & Hworld).
  repeat split; assumption.
Qed.

(** ** The methods run on the fixtures *)

Import Fixtures.

(** Construction: two paths in one repository; one path outside any
    repository and one inside; two paths in two repositories; a path that
    does not exist. *)
Example init_same_repo :
  toy_init ["/home/u/proj/a.py"; "/home/u/proj/src/b.py"] [] =
  (Return {| repo_path := "/home/u/proj"; root := "/home/u/proj" |}, []).
Proof. vm_compute. reflexivity. Qed.

Example init_one_outside :
  toy_init ["/tmp/notes.txt"; "/home/u/proj/a.py"] [] =
  (Return {| repo_path := "/home/u/proj"; root := "/home/u/proj" |}, []).
Proof. vm_compute. reflexivity. Qed.

Example init_two_repos :
  toy_init ["/home/u/proj/a.py"; "/home/u/other/b.py"] [] =
  (Raise FileNotFoundError, [tool_error "Files are in different git repos."]).
Proof. vm_compute. reflexivity. Qed.

Example init_missing_path :
  toy_init ["/nowhere/missing.txt"; "/home/u/proj/a.py"] [] =
  (Raise NoSuchPathError, []).
Proof. vm_compute. reflexivity. Qed.



(** Committing on a clean tree. *)
Lemma commit_clean_is_noop_witness :
  repo_is_dirty (repo (world clean_repo [Completion (Some "unused")])) = false
  /\ toy_do_commit (Some "chat") (Some "aider: ") (Some "fix typo")
       (world clean_repo [Completion (Some "unused")]) =
     (Return None, world clean_repo [Completion (Some "unused")]).
Proof.
  split; [reflexivity|].
  apply (commit_clean_is_noop gpt35 gpt35_16k system_prompt). reflexivity.
Defined.

(** C3 as stated fails at the threshold itself: a diff of exactly 4*4096
    characters is refused, nothing is submitted. *)
Lemma diff_of_threshold_length_is_refused :
  let diffs := replicate_char (4 * 4096) "x" in
  let r := toy_commit_message diffs None
             (world (dirty_repo diffs) [Completion (Some "fix")]) in
  Py.len diffs = (4 * 4096)%Z
  /\ fst r = Return None
  /\ requests (snd r) = []
  /\ io (snd r) =
     [tool_error "Diff is too large for gpt-3.5-turbo to generate a commit message."].
Proof. vm_compute. repeat split. Qed.

Lemma diff_size_bound_witness :
  let small := replicate_char (4 * 4096 - 1) "x" in
  let large := replicate_char (4 * 4096) "x" in
  let w := world (dirty_repo "d") [Completion (Some "fix")] in
  ((exists more,
      requests (snd (toy_commit_message small None w)) =
      requests w ++ {| model := gpt35;
                       messages := prompt_messages system_prompt small None |} :: more)
   /\ (io (snd (toy_commit_message small None w)) = io w
       \/ io (snd (toy_commit_message small None w)) =
          io w ++ [tool_error "Failed to generate commit message!"]))
  /\ toy_commit_message large None w =
     (Return None,
      {| repo := repo w; service := service w; git_calls := git_calls w;
         requests := requests w;
         io := io w ++ [tool_error (too_large_notice gpt35)] |}).
Proof.
  intros small large w. split.
  - apply (proj1 (diff_size_bound gpt35 gpt35_16k system_prompt small None w)).
    vm_compute. reflexivity.
  - apply (proj2 (diff_size_bound gpt35 gpt35_16k system_prompt large None w)).
    vm_compute. discriminate.
Defined.

(** C5. The first request is rejected; the second request is made, and
    it names [gpt-3.5-turbo] again, not [gpt-3.5-turbo-16k]: the call in
    the loop passes [models.GPT35.name] where the loop variable was
    meant. *)
Theorem second_attempt_names_primary_model :
  let w := world (dirty_repo "d") [InvalidRequestError; Completion (Some "fix")] in
  let r := toy_commit_message "d" None w in
  List.map model (requests (snd r)) = [gpt35; gpt35]
  /\ gpt35 <> gpt35_16k
  /\ ~ In gpt35_16k (List.map model (requests (snd r))).
Proof.
  vm_compute. repeat split; try discriminate.
  intros [Hx|[Hx|[]]]; discriminate.
Qed.

Lemma rejected_then_same_model_witness :
  let w := world (dirty_repo "d") [InvalidRequestError; Completion (Some "fix")] in
  let msgs := prompt_messages system_prompt "d" None in
  requests (snd (try_models gpt35 msgs [gpt35; gpt35_16k] w)) =
  requests w ++ [ {| model := gpt35; messages := msgs |};
                  {| model := gpt35; messages := msgs |} ].
Proof.
  intros w msgs.
  apply (rejected_then_same_model gpt35 gpt35_16k msgs w [Completion (Some "fix")]).
  reflexivity.
Defined.



(** The fallback for a diff that is too large, and for a reply that is
    only whitespace. *)
Example commit_placeholder_on_large_diff :
  fst (toy_do_commit None None None
         (world (dirty_repo (replicate_char (4 * 4096) "x")) [Completion (Some "fix")]))
  = Return (Some ("8f3a2c9", "(no commit message provided)")).
Proof. vm_compute. reflexivity. Qed.

Example commit_placeholder_on_blank_reply :
  fst (toy_do_commit None None None (world (dirty_repo "d") [Completion (Some "   ")]))
  = Return (Some ("8f3a2c9", "(no commit message provided)")).
Proof. vm_compute. reflexivity. Qed.

(** Post-processing: one layer of quotes goes, inner quotes stay. *)
Example postprocess_quoted :
  postprocess ("  " +:+ quoted "Fix the parser" +:+ nl) = "Fix the parser".
Proof. vm_compute. reflexivity. Qed.

Example postprocess_doubly_quoted :
  postprocess (quoted (quoted "Fix the parser")) = quoted "Fix the parser".
Proof. vm_compute. reflexivity. Qed.

Example postprocess_inner_quotes :
  postprocess (" Rename " +:+ quoted "foo" +:+ " to " +:+ quoted "bar" +:+ " ")
  = "Rename " +:+ quoted "foo" +:+ " to " +:+ quoted "bar".
Proof. vm_compute. reflexivity. Qed.

Lemma postprocess_strips_one_quote_layer_witness :
  postprocess ("  " +:+ quoted " Fix the parser" +:+ nl) = Py.strip " Fix the parser"
  /\ postprocess (" Rename " +:+ quoted "foo" +:+ " now ")
     = Py.strip (" Rename " +:+ quoted "foo" +:+ " now ").
Proof.
  split.
  - apply (proj1 (postprocess_strips_one_quote_layer
                    ("  " +:+ quoted " Fix the parser" +:+ nl))).
    vm_compute. reflexivity.
  - apply (proj2 (postprocess_strips_one_quote_layer
                    (" Rename " +:+ quoted "foo" +:+ " now "))).
    vm_compute. intros [Hfirst _]. discriminate.
Defined.

(** Tracked files: the commit of the fixture has [a/b.txt] and [c.txt]. *)
Example tracked_files_posix :
  get_tracked_files "/" (Some clean_repo) = PySet {[ "a/b.txt"; "c.txt" ]}.
Proof. vm_compute. reflexivity. Qed.

Example tracked_files_windows :
  get_tracked_files "\" (Some clean_repo) = PySet {[ "a\b.txt"; "c.txt" ]}.
Proof. vm_compute. reflexivity. Qed.

Example tracked_files_no_commit :
  get_tracked_files "/" (Some (unborn_repo "d")) = PySet ∅.
Proof. reflexivity. Qed.

Lemma get_tracked_files_spec_witness :
  get_tracked_files "/" (Some (unborn_repo "d")) = PySet ∅
  /\ exists s, get_tracked_files "\" (Some clean_repo) = PySet s
       /\ (forall p, p ∈ s <->
             exists e, In e (traverse toy_commit) /\ type e = blob
                       /\ p = os_path "\" (path e))
       /\ (forall e, In e (traverse toy_commit) -> git_path (path e) ->
             os_path "\" (path e) = replace_slash "\" (path e)).
Proof.
  split.
  - apply (proj1 (get_tracked_files_spec "/" (unborn_repo "d"))). reflexivity.
  - apply (proj2 (get_tracked_files_spec "\" clean_repo) toy_commit). reflexivity.
Defined.

(** C9 as stated fails for an explicit message that is the empty string,
    on a repository that has a commit: the generation path is taken (the
    diff against [HEAD] is computed, a request is sent) and the result
    depends on what the service answers. *)
Lemma commit_with_empty_message_depends_on_service :
  let with_reply (reply : string) :=
    toy_do_commit None None (Some EmptyString)
      (world (dirty_repo "d") [Completion (Some reply)]) in
  toy_head (dirty_repo "d") = Some toy_commit
  /\ fst (with_reply "Fix the parser") = Return (Some ("8f3a2c9", "Fix the parser"))
  /\ fst (with_reply "Update the docs") = Return (Some ("8f3a2c9", "Update the docs"))
  /\ requests (snd (with_reply "Fix the parser")) <> []
  /\ In (diff_call ["HEAD"]) (git_calls (snd (with_reply "Fix the parser"))).
Proof.
  vm_compute. repeat split; try discriminate. left. reflexivity.
Qed.

Lemma commit_explicit_message_skips_generation_witness :
  let w1 := world (dirty_repo "d") [Completion (Some "Fix the parser")] in
  let w2 := world (dirty_repo "d") [OtherError; AttributeError] in
  let r1 := toy_do_commit (Some "chat") (Some "aider: ") (Some "Bump version") w1 in
  let r2 := toy_do_commit (Some "chat") (Some "aider: ") (Some "Bump version") w2 in
  requests (snd r1) = requests w1
  /\ service (snd r1) = service w1
  /\ git_calls (snd r1) =
     git_calls w1 ++
     [commit_call (full_message (subject_line (Some "Bump version") (Some "aider: "))
                                (Some "chat"))]
  /\ fst r1 = fst r2
  /\ outside_service (snd r1) = outside_service (snd r2).
Proof.
  intros w1 w2 r1 r2.
  apply (commit_explicit_message_skips_generation scripted scripted
           gpt35 gpt35_16k system_prompt (Some "chat") (Some "aider: ")
           "Bump version" w1 w2).
  - reflexivity.
  - discriminate.
  - reflexivity.
Defined.

Lemma commit_empty_message_is_no_message_witness :
  let w := world (dirty_repo "d") [Completion (Some "Fix the parser")] in
  let r := toy_do_commit None None (Some EmptyString) w in
  r = toy_do_commit None None None w
  /\ r = bind (get_diffs false [])
           (fun diffs =>
              bind (toy_commit_message diffs None)
                (fun produced =>
                   record_commit (subject_line produced None)
                     (full_message (subject_line produced None) None))) w
  /\ (forall produced,
        subject_line produced None <> EmptyString
        /\ full_message (subject_line produced None) None <> EmptyString)
  /\ (exists more,
        git_calls (snd r) = git_calls w ++ diff_call ["HEAD"] :: more
        /\ (more = []
            \/ exists full, more = [commit_call full] /\ full <> EmptyString)).
Proof.
  intros w r.
  apply (commit_empty_message_is_no_message gpt35 gpt35_16k system_prompt None None w).
  reflexivity.
Defined.

(** On a repository with no commit yet, the generation path stops at
    [git diff HEAD]. *)
Example commit_on_unborn_branch :
  let r := toy_do_commit None None None
             (world (unborn_repo "d") [Completion (Some "Fix the parser")]) in
  fst r = Raise GitCommandError
  /\ git_calls (snd r) = [diff_call ["HEAD"]]
  /\ requests (snd r) = [].
Proof. vm_compute. repeat split. Qed.

(** ** More on strings *)

Lemma prefix_append (a b : string) : String.prefix a (a +:+ b) = true.
Proof.
  induction a as [|c a IH]; simpl.
  - destruct b; reflexivity.
  - destruct (ascii_dec c c) as [_|Hne]; [exact IH | congruence].
Qed.

Lemma prefix_substring (n : nat) (s : string) :
  String.prefix (String.substring 0 n s) s = true.
Proof.
  revert n. induction s as [|c s IH]; intros [|n]; simpl; try reflexivity.
  destruct (ascii_dec c c) as [_|Hne]; [apply IH | congruence].
Qed.

Lemma length_substring (n : nat) (s : string) :
  String.length (String.substring 0 n s) = Nat.min n (String.length s).
Proof.
  revert n. induction s as [|c s IH]; intros [|n]; simpl; try reflexivity.
  now rewrite IH.
Qed.

Lemma slice_to_substring (s : string) (n : Z) :
  (0 <= n)%Z ->
  Py.slice_to s n = String.substring 0 (Z.to_nat (Z.min n (Py.len s))) s.
Proof.
  intros Hn. unfold Py.slice_to, Py.slice, Py.clamp.
  change (0 <? 0)%Z with false. cbv iota.
  destruct (Z.ltb_spec n 0) as [Hneg|_]; [lia|].
  assert (Hlen : (0 <= Py.len s)%Z) by (unfold Py.len; lia).
  replace (Z.max 0 (Z.min 0 (Py.len s))) with 0%Z by lia.
  replace (Z.max 0 (Z.min n (Py.len s)) - 0)%Z with (Z.min n (Py.len s)) by lia.
  reflexivity.
Qed.

(** What [str.strip] leaves has no whitespace at either end, so stripping
    again changes nothing. *)
Lemma rstrip_idempotent (s : string) : Py.rstrip (Py.rstrip s) = Py.rstrip s.
Proof.
  induction s as [|c r IH]; simpl; [reflexivity|].
  destruct (Py.rstrip r) as [|d r'] eqn:Hr.
  - destruct (Py.isspace c) eqn:Hc; simpl; [reflexivity | now rewrite Hc].
  - simpl in IH |- *. destruct (Py.rstrip r') as [|e r''] eqn:Hr'.
    + destruct (Py.isspace d); [discriminate|]. now rewrite IH.
    + now rewrite IH.
Qed.

Lemma lstrip_head (s : string) :
  Py.lstrip s = EmptyString
  \/ exists c r, Py.lstrip s = String c r /\ Py.isspace c = false.
Proof.
  induction s as [|c r IH]; simpl; [now left|].
  destruct (Py.isspace c) eqn:Hc; [exact IH | right; eauto].
Qed.

Lemma rstrip_keeps_head (c : ascii) (r : string) :
  Py.isspace c = false -> exists r', Py.rstrip (String c r) = String c r'.
Proof.
  intros Hc. simpl. destruct (Py.rstrip r) as [|d r'].
  - rewrite Hc. eauto.
  - eauto.
Qed.

Lemma strip_idempotent (s : string) : Py.strip (Py.strip s) = Py.strip s.
Proof.
  unfold Py.strip. destruct (lstrip_head s) as [He|(c & r & He & Hc)]; rewrite He.
  - reflexivity.
  - destruct (rstrip_keeps_head c r Hc) as [r' Hr']. rewrite Hr'.
    simpl Py.lstrip. rewrite Hc. rewrite <- Hr'. apply rstrip_idempotent.
Qed.

Lemma postprocess_stripped (s : string) : Py.strip (postprocess s) = postprocess s.
Proof.
  unfold postprocess.
  destruct (Py.truthy (Py.strip s)
            && bool_decide (Py.index (Py.strip s) 0 = Some dquote)
            && bool_decide (Py.index (Py.strip s) (-1) = Some dquote));
    apply strip_idempotent.
Qed.

(** ** More properties of the methods *)

Section MoreProperties.

Context {G L : Type} `{VersionControl G} `{BranchHistory G} `{TextGeneration L}.
Variable GPT35_name : string.
Variable GPT35_16k_name : string.
Variable commit_system : string.

Abbreviation W := (World G L).
Abbreviation commit' := (commit GPT35_name GPT35_16k_name commit_system).
Abbreviation get_commit_message' :=
  (get_commit_message GPT35_name GPT35_16k_name commit_system).
Abbreviation message_step' :=
  (message_step GPT35_name GPT35_16k_name commit_system).

(** *** Requests of [get_commit_message] *)

(** X1. [get_commit_message] sends at most two requests, each naming
    [GPT35_name] and carrying the same two messages (the system prompt and
    the prompt built from the diff and the context); it issues no git
    command and leaves the repository as it is. *)
Theorem generation_sends_at_most_two_requests
  (diffs : string) (ctx : option string) (w : W) :
  let w' := snd (get_commit_message GPT35_name GPT35_16k_name commit_system diffs ctx w) in
  repo w' = repo w
  /\ git_calls w' = git_calls w
  /\ exists n, (n <= 2)%nat
       /\ requests w' =
          requests w ++
          replicate n {| model := GPT35_name;
                         messages := prompt_messages commit_system diffs ctx |}.
Proof.
  unfold get_commit_message.
  destruct (4 * 1024 * 4 <=? Py.len diffs)%Z.
  - simpl. repeat split. exists 0%nat. split; [lia|]. simpl. now rewrite app_nil_r.
  - unfold bind.
    pose proof (try_models_frame GPT35_name (prompt_messages commit_system diffs ctx)
                  [GPT35_name; GPT35_16k_name] w) as Hf.
    destruct (try_models GPT35_name (prompt_messages commit_system diffs ctx)
                [GPT35_name; GPT35_16k_name] w) as [[[[|c r]|]|e] w1];
      simpl in Hf |- *; destruct Hf as (Hr & Hg & _ & n & Hn & Hq);
      (repeat split; [exact Hr | exact Hg | exists n; split; [exact Hn | exact Hq]]).
Qed.

(** X2. A reply is final: when the first request is answered (even with no
    content, or with an empty or blank text), no second request is made.
    An answer without usable content gives the notice of a failed
    generation and no message. *)
Theorem answered_request_is_not_retried
  (diffs : string) (ctx : option string) (w : W) (c : option string) (l1 : L) :
  (Py.len diffs < 4 * 4096)%Z ->
  send_with_retries GPT35_name (prompt_messages commit_system diffs ctx) (service w)
    = (Completion c, l1) ->
  let r := get_commit_message GPT35_name GPT35_16k_name commit_system diffs ctx w in
  requests (snd r) =
    requests w ++ [{| model := GPT35_name;
                      messages := prompt_messages commit_system diffs ctx |}]
  /\ service (snd r) = l1
  /\ (Py.truthy_opt c = false ->
      fst r = Return None
      /\ io (snd r) = io w ++ [tool_error "Failed to generate commit message!"]).
Proof.
  intros Hlen H2 r. subst r. unfold get_commit_message.
  destruct (Z.leb_spec (4 * 1024 * 4) (Py.len diffs)) as [Hge|_]; [lia|].
  unfold bind. simpl. unfold bind, send. rewrite H2. simpl.
  destruct c as [[|a s]|]; simpl; repeat split; discriminate.
Qed.

(** X3. A message that [get_commit_message] returns has no whitespace at
    either end: stripping it changes nothing. *)
Theorem generated_message_is_trimmed
  (diffs : string) (ctx : option string) (w : W) (m : string) :
  fst (get_commit_message GPT35_name GPT35_16k_name commit_system diffs ctx w)
    = Return (Some m) ->
  Py.strip m = m.
Proof.
  unfold get_commit_message.
  destruct (4 * 1024 * 4 <=? Py.len diffs)%Z; [discriminate|].
  unfold bind.
  destruct (try_models GPT35_name (prompt_messages commit_system diffs ctx)
              [GPT35_name; GPT35_16k_name] w) as [[[[|c r]|]|e] w1]; simpl;
    try discriminate.
  intros Hm. injection Hm as <-. apply postprocess_stripped.
Qed.

Lemma length_prompt_content (diffs : string) (ctx : option string) :
  Py.len (prompt_content diffs ctx) =
  (Py.len diffs + 9
   + (if Py.truthy_opt ctx then Py.len (default EmptyString ctx) + 1 else 0))%Z.
Proof.
  unfold prompt_content, Py.len.
  destruct ctx as [[|c r]|]; simpl Py.truthy_opt; simpl Py.truthy; cbv iota;
    rewrite ?length_append; simpl; rewrite ?length_append; simpl; lia.
Qed.


(** *** The trace and the result of [commit] *)

Lemma prefix_refl (a : string) : String.prefix a a = true.
Proof.
  induction a as [|c a IH]; simpl; [reflexivity|].
  destruct (ascii_dec c c) as [_|Hne]; [exact IH | congruence].
Qed.

Lemma message_step_git_calls (ctx message : option string) (w : W) :
  git_calls (snd (message_step' ctx message w)) =
  git_calls w ++ (if Py.truthy_opt message then [] else [diff_call ["HEAD"]]).
Proof.
  unfold message_step. destruct (Py.truthy_opt message).
  - simpl. now rewrite app_nil_r.
  - unfold bind.
    pose proof (git_frame "diff" ["HEAD"] w) as Hdiff.
    rewrite <- get_diffs_default in Hdiff.
    destruct (get_diffs false [] w) as [[diffs|e] w1]; simpl in Hdiff;
      destruct Hdiff as (_ & _ & _ & Hcalls1); [|exact Hcalls1].
    destruct (get_commit_message_frame GPT35_name GPT35_16k_name commit_system
                diffs ctx w1) as (_ & Hcalls2).
    rewrite Hcalls2. exact Hcalls1.
Qed.

Lemma prefix_subject_line (produced prefix : option string) :
  Py.truthy_opt prefix = true ->
  String.prefix (default EmptyString prefix) (subject_line produced prefix) = true.
Proof. intros Hp. unfold subject_line. rewrite Hp. apply prefix_append. Qed.

Lemma prefix_full_message (subject : string) (ctx : option string) :
  String.prefix subject (full_message subject ctx) = true.
Proof.
  unfold full_message. destruct (Py.truthy_opt ctx);
    [apply prefix_append | apply prefix_refl].
Qed.

(** X5. When [commit] on a dirty tree returns, it has issued exactly one
    [git commit -a -m ... --no-verify]; it comes last, after a single
    [git diff HEAD] when the explicit message is missing or empty and
    after nothing otherwise; the text given to [-m] is not empty. *)
Theorem commit_issues_one_commit (ctx prefix message : option string) (w : W)
  (res : option (string * string)) :
  repo_is_dirty (repo w) = true ->
  let r := commit GPT35_name GPT35_16k_name commit_system ctx prefix message w in
  fst r = Return res ->
  exists full,
    git_calls (snd r) =
    git_calls w
    ++ (if Py.truthy_opt message then [] else [diff_call ["HEAD"]])
    ++ [commit_call full]
    /\ full <> EmptyString.
Proof.
  intros Hd r. subst r.
  rewrite (commit_dirty GPT35_name GPT35_16k_name commit_system
             ctx prefix message w Hd).
  pose proof (message_step_git_calls ctx message w) as Hstep.
  unfold bind.
  destruct (message_step' ctx message w) as [[produced|e] w']; simpl in Hstep;
    [|discriminate].
  intros _. exists (full_message (subject_line produced prefix) ctx). split.
  - destruct (record_commit_spec (subject_line produced prefix)
                (full_message (subject_line produced prefix) ctx) w') as (Hc & _).
    rewrite Hc, Hstep, <- app_assoc. reflexivity.
  - apply full_message_nonempty, subject_line_nonempty.
Qed.

(** What [record_commit] has done when it returns. *)
Lemma record_commit_returns (subject full : string) (w : W)
  (res : option (string * string)) :
  fst (record_commit subject full w) = Return res ->
  exists out g c,
    repo_git "commit" ["-a"; "-m"; full; "--no-verify"] (repo w) = (Some out, g)
    /\ repo_head_commit g = Some c.
Proof.
  unfold record_commit, bind, git.
  destruct (repo_git "commit" ["-a"; "-m"; full; "--no-verify"] (repo w))
    as [[out|] g]; simpl; [|discriminate].
  destruct (repo_head_commit g) as [c|] eqn:Hhead; simpl; [|discriminate].
  intros _. exists out, g, c. split; [reflexivity | exact Hhead].
Qed.

(** X6. When [commit] returns a pair [(hash, m)]: [m] is not empty and
    starts with the prefix (when one is given); the text committed starts
    with [m]; [hash] is the head commit's [hexsha] cut to at most seven
    characters; and the last thing told to the user is
    ["Commit <hash> <m>"]. *)
Theorem commit_result_matches_what_was_committed
  (ctx prefix message : option string) (w : W) (hash m : string) :
  repo_is_dirty (repo w) = true ->
  let r := commit GPT35_name GPT35_16k_name commit_system ctx prefix message w in
  fst r = Return (Some (hash, m)) ->
  m <> EmptyString
  /\ (Py.truthy_opt prefix = true ->
      String.prefix (default EmptyString prefix) m = true)
  /\ (exists full, last (git_calls (snd r)) = Some (commit_call full)
                   /\ String.prefix m full = true)
  /\ (exists c, repo_head_commit (repo (snd r)) = Some c
                /\ String.prefix hash (hexsha c) = true
                /\ String.length hash = Nat.min 7 (String.length (hexsha c)))
  /\ last (io (snd r)) = Some (tool_output ("Commit " +:+ hash +:+ " " +:+ m)).
Proof.
  intros Hd r. subst r.
  rewrite (commit_dirty GPT35_name GPT35_16k_name commit_system
             ctx prefix message w Hd).
  unfold bind.
  destruct (message_step' ctx message w) as [[produced|e] w']; [|discriminate].
  set (subject := subject_line produced prefix).
  set (full := full_message subject ctx).
  intros Hres.
  destruct (record_commit_returns subject full w' _ Hres) as (out & g & c & Hgit & Hhead).
  destruct (record_commit_spec subject full w') as (Hcalls & _ & _ & Hok).
  destruct (Hok out g c Hgit Hhead) as (Hfst & Hrepo & Hio).
  rewrite Hfst in Hres. injection Hres as <- <-.
  split; [apply subject_line_nonempty|].
  split; [apply prefix_subject_line|].
  split.
  { exists full. rewrite Hcalls. split; [apply last_snoc | apply prefix_full_message]. }
  split.
  { exists c. rewrite Hrepo. split; [exact Hhead|].
    rewrite (slice_to_substring (hexsha c) 7) by lia.
    split; [apply prefix_substring|].
    rewrite length_substring. unfold Py.len. lia. }
  rewrite Hio. apply last_snoc.
Qed.


(** *** Staging and showing *)

Variable os_sep : string.
Variable resolve : string -> string.
Variable dump_text : bool -> string.

Lemma add_loop_trace (cur_files fnames : list string) (w : W) :
  fst (add_loop resolve cur_files fnames w) = Return tt ->
  let staged :=
    List.filter (fun fname => negb (bool_decide (resolve fname ∈ cur_files))) fnames in
  let w' := snd (add_loop resolve cur_files fnames w) in
  git_calls w' = git_calls w ++ List.map add_call staged
  /\ io w' = io w ++ List.map adding_notice staged
  /\ requests w' = requests w
  /\ service w' = service w.
Proof.
  revert w. induction fnames as [|fname rest IH]; intros w; simpl.
  - intros _. rewrite !app_nil_r. auto.
  - destruct (bool_decide (resolve fname ∈ cur_files)); simpl.
    + apply IH.
    + unfold bind, io_tool_output, git. simpl.
      destruct (repo_git "add" [fname] (repo w)) as [[out|] g]; simpl;
        [|discriminate].
      intros Hret.
      match goal with |- context [add_loop resolve cur_files rest ?w1] =>
        destruct (IH w1 Hret) as (Hc & Hi & Hq & Hs) end.
      simpl in Hc, Hi, Hq, Hs. rewrite Hc, Hi, Hq, Hs, <- !app_assoc. auto.
Qed.

(** X8. When [add_new_files] returns (no [git add] failed), it has run
    [git add] for the given names whose resolved path is not the resolved
    path of a tracked file: in the order given, once per occurrence, each
    announced by a notice just before; nothing else has been run or said,
    and no request has been sent. *)
Theorem add_new_files_stages_untracked (fnames : list string) (w : W) :
  fst (add_new_files os_sep resolve fnames w) = Return tt ->
  let tracked := items (get_tracked_files os_sep (Some (repo w))) in
  let staged := to_stage resolve tracked fnames in
  let w' := snd (add_new_files os_sep resolve fnames w) in
  git_calls w' = git_calls w ++ List.map add_call staged
  /\ io w' = io w ++ List.map adding_notice staged
  /\ requests w' = requests w
  /\ service w' = service w.
Proof. unfold add_new_files, to_stage. apply add_loop_trace. Qed.

(** X9. When every given name resolves to a tracked file, [add_new_files]
    does nothing at all. *)
Theorem add_new_files_skips_tracked (fnames : list string) (w : W) :
  (forall fname, In fname fnames ->
     exists t, In t (items (get_tracked_files os_sep (Some (repo w))))
               /\ resolve fname = resolve t) ->
  add_new_files os_sep resolve fnames w = (Return tt, w).
Proof.
  intros Hall. unfold add_new_files.
  set (cur := List.map resolve (items (get_tracked_files os_sep (Some (repo w))))).
  assert (Hcur : forall fname, In fname fnames -> resolve fname ∈ cur).
  { intros fname Hin. destruct (Hall fname Hin) as (t & Ht & Heq).
    apply list_elem_of_In. rewrite Heq. now apply in_map. }
  clearbody cur. clear Hall.
  induction fnames as [|fname rest IH]; simpl; [reflexivity|].
  rewrite bool_decide_eq_true_2 by (apply Hcur; now left).
  apply IH. intros f Hf. apply Hcur. now right.
Qed.


(** *** The second attempt and a lone quote *)

(** X15. When the first request fails with one of the two caught errors
    and the second is answered with a non-empty text, that text,
    post-processed, is the message; two requests have been sent and no
    notice is given. *)
Theorem second_answer_is_used
  (diffs : string) (ctx : option string) (w : W) (o1 : SendOutcome) (l1 l2 : L)
  (c : ascii) (r : string) :
  (Py.len diffs < 4 * 4096)%Z ->
  send_with_retries GPT35_name (prompt_messages commit_system diffs ctx) (service w)
    = (o1, l1) ->
  o1 = AttributeError \/ o1 = InvalidRequestError ->
  send_with_retries GPT35_name (prompt_messages commit_system diffs ctx) l1
    = (Completion (Some (String c r)), l2) ->
  let res := get_commit_message GPT35_name GPT35_16k_name commit_system diffs ctx w in
  fst res = Return (Some (postprocess (String c r)))
  /\ length (requests (snd res)) = (length (requests w) + 2)%nat
  /\ io (snd res) = io w.
Proof.
  intros Hlen H1' Ho H2' res. subst res. unfold get_commit_message.
  destruct (Z.leb_spec (4 * 1024 * 4) (Py.len diffs)) as [Hge|_]; [lia|].
  unfold bind. simpl. unfold bind, send. rewrite H1'.
  destruct Ho as [-> | ->]; simpl; rewrite H2'; simpl;
    rewrite !length_app; simpl; (repeat split; try reflexivity; lia).
Qed.

(** X16. A reply that, once trimmed, is a single double quote is emptied:
    the one character counts both as the opening and as the closing
    quote. *)
Theorem postprocess_lone_quote (s : string) :
  Py.strip s = String dquote EmptyString -> postprocess s = EmptyString.
Proof. intros Hs. unfold postprocess. rewrite Hs. reflexivity. Qed.

End MoreProperties.

(** ** More on tracked files *)

Section MoreTrackedFiles.

Context {G : Type} `{VersionControl G}.

Lemma replace_slash_by_slash (p : string) : replace_slash "/" p = p.
Proof.
  induction p as [|c r IH]; simpl; [reflexivity|].
  destruct (Ascii.eqb_spec c "/"%char) as [->|_]; simpl; now rewrite IH.
Qed.

Lemma has_slash_append (a b : string) :
  has_slash (a +:+ b) = has_slash a || has_slash b.
Proof.
  induction a as [|c a IH]; simpl; [reflexivity|]. rewrite IH. apply orb_assoc.
Qed.

Lemma split_slash_parts (p : string) :
  Forall (fun part => has_slash part = false) (split_slash p).
Proof.
  induction p as [|c r IH]; simpl.
  - repeat constructor.
  - destruct (Ascii.eqb c "/") eqn:Hc.
    + constructor; [reflexivity | exact IH].
    + destruct (split_slash r) as [|h t]; [repeat constructor; simpl; now rewrite Hc|].
      inversion IH as [|? ? Hh Ht]; subst.
      constructor; [simpl; now rewrite Hc, Hh | exact Ht].
Qed.

Lemma has_slash_concat (sep : string) (parts : list string) :
  has_slash sep = false ->
  Forall (fun part => has_slash part = false) parts ->
  has_slash (String.concat sep parts) = false.
Proof.
  intros Hsep Hparts. induction Hparts as [|x l Hx Hl IH]; simpl; [reflexivity|].
  destruct l as [|y l']; [exact Hx|].
  rewrite !has_slash_append, Hx, Hsep, IH. reflexivity.
Qed.

Lemma os_path_no_slash (os_sep p : string) :
  has_slash os_sep = false -> has_slash (os_path os_sep p) = false.
Proof.
  intros Hsep. unfold os_path, posix_parts.
  assert (Hparts : Forall (fun part => has_slash part = false)
                     (List.filter kept_part (split_slash p))).
  { apply List.Forall_forall. intros part Hin. apply filter_In in Hin as [Hin _].
    exact (proj1 (List.Forall_forall _ _) (split_slash_parts p) part Hin). }
  destruct (List.filter kept_part (split_slash p)) as [|x l] eqn:Hf; [reflexivity|].
  now apply has_slash_concat.
Qed.

(** X11. On a host whose separator holds no slash, no path that
    [get_tracked_files] returns holds a slash. *)
Theorem tracked_files_have_no_slash (os_sep : string) (self_repo : option G)
  (p : string) :
  has_slash os_sep = false ->
  In p (items (get_tracked_files os_sep self_repo)) ->
  has_slash p = false.
Proof.
  intros Hsep. unfold get_tracked_files.
  destruct self_repo as [g|]; [|intros []].
  destruct (repo_head_commit g) as [c|]; simpl.
  - intros Hin. apply list_elem_of_In, elem_of_elements, elem_of_list_to_set in Hin.
    apply list_elem_of_In, in_map_iff in Hin as (q & <- & _).
    now apply os_path_no_slash.
  - rewrite elements_empty. intros [].
Qed.

(** X12. On a host whose separator is the slash, [get_tracked_files]
    returns the paths of the blobs of the head commit exactly as git
    stores them. *)
Theorem tracked_files_unchanged_on_posix (g : G) (c : Commit) :
  repo_head_commit g = Some c ->
  (forall e, In e (traverse c) -> type e = blob -> git_path (path e)) ->
  get_tracked_files "/" (Some g) =
  PySet (list_to_set
           (List.map path
              (List.filter (fun e => ObjType_eqb (type e) blob) (traverse c)))).
Proof.
  intros Hc Hpaths. unfold get_tracked_files. rewrite Hc.
  rewrite collect_blobs_spec. simpl. rewrite map_map. f_equal. f_equal.
  apply map_ext_in. intros e He. apply filter_In in He as [Hin Hty].
  apply ObjType_eqb_blob in Hty.
  rewrite (os_path_git_path "/" (path e) (Hpaths e Hin Hty)).
  apply replace_slash_by_slash.
Qed.

End MoreTrackedFiles.

(** ** More on construction *)

Section MoreInitProperties.

Variable resolve : string -> string.
Variable working_dir : string -> Lookup.
Variable safe_abs_path : string -> string.
Variable working_tree_dir : string -> string.

Abbreviation find' := (find_repo_path resolve working_dir safe_abs_path).
Abbreviation collect' := (collect_repo_paths resolve working_dir safe_abs_path).
Abbreviation init' := (init resolve working_dir safe_abs_path working_tree_dir).

Lemma last_In {A : Type} (l : list A) (x : A) : last l = Some x -> In x l.
Proof.
  intros Hl. apply last_Some in Hl as [l' ->]. apply in_app_iff. right. now left.
Qed.

(** What the last branch of [__init__] knows about the collected paths. *)
Lemma single_root (paths : list string) :
  size (list_to_set paths : gset string) = 1%nat ->
  exists r, last paths = Some r /\ forall x, In x paths <-> x = r.
Proof.
  intros Hone. destruct (size_1_elem_of _ Hone) as [r Hr].
  assert (Hmem : forall x, In x paths <-> x = r).
  { intros x. rewrite <- list_elem_of_In, <- (elem_of_list_to_set (C:=gset string)), Hr.
    apply elem_of_singleton. }
  exists r. split; [|exact Hmem].
  destruct (last_nonempty paths) as [x Hx].
  { intros Hnil. subst paths. destruct (proj2 (Hmem r) eq_refl). }
  rewrite Hx. f_equal. apply Hmem. now apply last_In.
Qed.

(** X13. When construction succeeds nothing is told to the user, the
    repository adopted is the root that every candidate inside a
    repository resolves to, and [root] is the safe absolute form of that
    repository's working tree directory. *)
Theorem init_adopts_the_common_root (fnames : list string) (io io' : list IoEvent)
  (a : AiderRepo) :
  init resolve working_dir safe_abs_path working_tree_dir fnames io = (Return a, io') ->
  io' = io
  /\ root a = safe_abs_path (working_tree_dir (repo_path a))
  /\ (exists f, In f (check_fnames_of fnames)
                /\ find' f = Return (Some (repo_path a)))
  /\ (forall f r, In f (check_fnames_of fnames) -> find' f = Return (Some r) ->
                  r = repo_path a).
Proof.
  unfold init.
  pose proof (collect_repo_paths_spec resolve working_dir safe_abs_path
                (check_fnames_of fnames) []) as Hspec.
  destruct (collect' (check_fnames_of fnames) []) as [paths|e]; [|discriminate].
  destruct Hspec as (_ & Hin0).
  assert (Hin : forall r, In r paths <->
                          exists f, In f (check_fnames_of fnames)
                                    /\ find' f = Return (Some r)).
  { intros r. rewrite Hin0. simpl. tauto. }
  destruct (Nat.eqb_spec (size (list_to_set paths : gset string)) 0) as [Hz|Hnz];
    [discriminate|].
  destruct (Nat.ltb_spec 1 (size (list_to_set paths : gset string))) as [Hgt|Hle];
    [discriminate|].
  destruct (single_root paths) as (r & Hlast & Hmem); [lia|].
  rewrite Hlast. intros Hres. injection Hres as <- <-. simpl.
  split; [reflexivity|]. split; [reflexivity|]. split.
  - apply Hin, Hmem. reflexivity.
  - intros f r' Hf Hr'. apply Hmem, Hin. eauto.
Qed.

Lemma check_fnames_members (fnames fnames' : list string) :
  (forall f, In f fnames <-> In f fnames') ->
  forall f, In f (check_fnames_of fnames) <-> In f (check_fnames_of fnames').
Proof.
  intros Hsame. destruct fnames as [|x l], fnames' as [|y l']; simpl.
  - tauto.
  - destruct (proj2 (Hsame y) (or_introl eq_refl)).
  - destruct (proj1 (Hsame x) (or_introl eq_refl)).
  - exact Hsame.
Qed.

(** X14. For given names that all exist, construction depends on them
    only as a set: two lists with the same members, in any order and with
    any repetitions, give the same result and the same notices. *)
Theorem init_depends_on_members_only (fnames fnames' : list string)
  (io : list IoEvent) :
  (forall f, In f fnames <-> In f fnames') ->
  (forall f, In f (check_fnames_of fnames) -> find' f <> Raise NoSuchPathError) ->
  init resolve working_dir safe_abs_path working_tree_dir fnames io
  = init resolve working_dir safe_abs_path working_tree_dir fnames' io.
Proof.
  intros Hsame Hexist.
  pose proof (check_fnames_members fnames fnames' Hsame) as Hcands.
  unfold init.
  pose proof (collect_repo_paths_spec resolve working_dir safe_abs_path
                (check_fnames_of fnames) []) as Hspec.
  pose proof (collect_repo_paths_spec resolve working_dir safe_abs_path
                (check_fnames_of fnames') []) as Hspec'.
  destruct (collect' (check_fnames_of fnames) []) as [paths|e].
  2:{ destruct Hspec as (_ & f & Hf & Hr). destruct (Hexist f Hf Hr). }
  destruct (collect' (check_fnames_of fnames') []) as [paths'|e'].
  2:{ destruct Hspec' as (_ & f & Hf & Hr). apply Hcands in Hf.
      destruct (Hexist f Hf Hr). }
  destruct Hspec as (_ & Hin). destruct Hspec' as (_ & Hin').
  assert (Hpaths : forall r, In r paths <-> In r paths').
  { intros r. rewrite Hin, Hin'. simpl.
    split; intros [[]|(f & Hf & Hr)]; right; exists f;
      (split; [now apply Hcands | exact Hr]). }
  assert (Hset : (list_to_set paths : gset string) = list_to_set paths').
  { apply set_eq. intros x. rewrite !elem_of_list_to_set, !list_elem_of_In. apply Hpaths. }
  rewrite Hset.
  destruct (Nat.eqb_spec (size (list_to_set paths' : gset string)) 0) as [Hz|Hnz];
    [reflexivity|].
  destruct (Nat.ltb_spec 1 (size (list_to_set paths' : gset string))) as [Hgt|Hle];
    [reflexivity|].
  destruct (single_root paths') as (r' & Hlast' & Hmem'); [lia|].
  destruct (single_root paths) as (r & Hlast & Hmem); [rewrite Hset; lia|].
  rewrite Hlast, Hlast'.
  assert (Hr : r = r') by (apply Hmem', Hpaths, Hmem; reflexivity).
  now rewrite Hr.
Qed.

End MoreInitProperties.

(** ** The other methods run on the fixtures *)

Import MoreFixtures.

Example add_new_files_example :
  let w' := snd (toy_add_new_files ["c.txt"; "d.txt"; "a/b.txt"; "d.txt"]
                   (world clean_repo [])) in
  git_calls w' = [add_call "d.txt"; add_call "d.txt"]
  /\ io w' = [adding_notice "d.txt"; adding_notice "d.txt"].
Proof. vm_compute. split; reflexivity. Qed.

(** A name that git refuses stops the loop: later names are not added. *)
Example add_new_files_stops_at_failure :
  let r := toy_add_new_files ["ghost.txt"; "d.txt"] (world clean_repo []) in
  fst r = Raise GitCommandError
  /\ git_calls (snd r) = [add_call "ghost.txt"]
  /\ io (snd r) = [adding_notice "ghost.txt"].
Proof. vm_compute. repeat split. Qed.

Lemma add_new_files_stages_untracked_witness :
  let w := world clean_repo [] in
  let tracked := items (get_tracked_files "/" (Some (repo w))) in
  let staged := to_stage toy_resolve tracked ["c.txt"; "d.txt"; "d.txt"] in
  let w' := snd (toy_add_new_files ["c.txt"; "d.txt"; "d.txt"] w) in
  git_calls w' = git_calls w ++ List.map add_call staged
  /\ io w' = io w ++ List.map adding_notice staged
  /\ requests w' = requests w
  /\ service w' = service w.
Proof.
  intros w.
  apply (add_new_files_stages_untracked "/" toy_resolve ["c.txt"; "d.txt"; "d.txt"] w).
  vm_compute. reflexivity.
Defined.


Lemma answered_request_is_not_retried_witness :
  let w := world (dirty_repo "d") [Completion None; Completion (Some "fix")] in
  let r := toy_commit_message "d" None w in
  requests (snd r) =
    requests w ++ [{| model := gpt35; messages := prompt_messages system_prompt "d" None |}]
  /\ service (snd r) = [Completion (Some "fix")]
  /\ (Py.truthy_opt None = false ->
      fst r = Return None
      /\ io (snd r) = io w ++ [tool_error "Failed to generate commit message!"]).
Proof.
  intros w r.
  apply (answered_request_is_not_retried gpt35 gpt35_16k system_prompt "d" None w
           None [Completion (Some "fix")]).
  - vm_compute. reflexivity.
  - reflexivity.
Defined.

Lemma generated_message_is_trimmed_witness :
  Py.strip "Fix the parser" = "Fix the parser".
Proof.
  apply (generated_message_is_trimmed gpt35 gpt35_16k system_prompt "d" None
           (world (dirty_repo "d") [Completion (Some ("  " +:+ quoted " Fix the parser ") )])).
  vm_compute. reflexivity.
Defined.


Lemma commit_issues_one_commit_witness :
  let w := world (dirty_repo "d") [Completion (Some "Fix the parser")] in
  let r := toy_do_commit (Some "chat") (Some "aider: ") None w in
  exists full,
    git_calls (snd r) =
    git_calls w
    ++ (if Py.truthy_opt None then [] else [diff_call ["HEAD"]])
    ++ [commit_call full]
    /\ full <> EmptyString.
Proof.
  intros w r.
  apply (commit_issues_one_commit gpt35 gpt35_16k system_prompt (Some "chat")
           (Some "aider: ") None w (Some ("8f3a2c9", "aider: Fix the parser"))).
  - reflexivity.
  - vm_compute. reflexivity.
Defined.

Lemma commit_result_matches_what_was_committed_witness :
  let w := world (dirty_repo "d") [Completion (Some "Fix the parser")] in
  let r := toy_do_commit (Some "chat") (Some "aider: ") None w in
  "aider: Fix the parser" <> EmptyString
  /\ (Py.truthy_opt (Some "aider: ") = true ->
      String.prefix (default EmptyString (Some "aider: ")) "aider: Fix the parser" = true)
  /\ (exists full, last (git_calls (snd r)) = Some (commit_call full)
                   /\ String.prefix "aider: Fix the parser" full = true)
  /\ (exists c, repo_head_commit (repo (snd r)) = Some c
                /\ String.prefix "8f3a2c9" (hexsha c) = true
                /\ String.length "8f3a2c9" = Nat.min 7 (String.length (hexsha c)))
  /\ last (io (snd r)) =
     Some (tool_output ("Commit " +:+ "8f3a2c9" +:+ " " +:+ "aider: Fix the parser")).
Proof.
  intros w r.
  apply (commit_result_matches_what_was_committed gpt35 gpt35_16k system_prompt
           (Some "chat") (Some "aider: ") None w "8f3a2c9" "aider: Fix the parser").
  - reflexivity.
  - vm_compute. reflexivity.
Defined.


Lemma add_new_files_skips_tracked_witness :
  toy_add_new_files ["c.txt"; "a/b.txt"; "c.txt"] (world clean_repo [])
  = (Return tt, world clean_repo []).
Proof.
  apply (add_new_files_skips_tracked "/" toy_resolve).
  intros fname [<-|[<-|[<-|[]]]].
  - exists "c.txt". split; [vm_compute; auto | reflexivity].
  - exists "a/b.txt". split; [vm_compute; auto | reflexivity].
  - exists "c.txt". split; [vm_compute; auto | reflexivity].
Defined.

Lemma tracked_files_have_no_slash_witness : has_slash "a\b.txt" = false.
Proof.
  apply (tracked_files_have_no_slash "\" (Some clean_repo) "a\b.txt").
  - reflexivity.
  - vm_compute. auto.
Defined.

Lemma tracked_files_unchanged_on_posix_witness :
  get_tracked_files "/" (Some clean_repo) =
  PySet (list_to_set
           (List.map path
              (List.filter (fun e => ObjType_eqb (type e) blob) (traverse toy_commit)))).
Proof.
  apply (tracked_files_unchanged_on_posix clean_repo toy_commit).
  - reflexivity.
  - intros e [<-|[<-|[<-|[]]]] Hty; try discriminate;
      unfold git_path; simpl; repeat constructor.
Defined.

Lemma init_adopts_the_common_root_witness :
  [] = ([] : list IoEvent)
  /\ root {| repo_path := "/home/u/proj"; root := "/home/u/proj" |}
     = repo_path {| repo_path := "/home/u/proj"; root := "/home/u/proj" |}
  /\ (exists f, In f (check_fnames_of ["/tmp/notes.txt"; "/home/u/proj/a.py"])
                /\ toy_find f = Return (Some "/home/u/proj"))
  /\ (forall f r, In f (check_fnames_of ["/tmp/notes.txt"; "/home/u/proj/a.py"]) ->
                  toy_find f = Return (Some r) -> r = "/home/u/proj").
Proof.
  apply (init_adopts_the_common_root (fun p => p) toy_working_dir (fun p => p)
           (fun p => p) ["/tmp/notes.txt"; "/home/u/proj/a.py"] [] []
           {| repo_path := "/home/u/proj"; root := "/home/u/proj" |}).
  vm_compute. reflexivity.
Defined.

Lemma init_depends_on_members_only_witness :
  toy_init ["/home/u/proj/a.py"; "/tmp/notes.txt"] []
  = toy_init ["/tmp/notes.txt"; "/home/u/proj/a.py"; "/tmp/notes.txt"] [].
Proof.
  apply (init_depends_on_members_only (fun p => p) toy_working_dir (fun p => p)
           (fun p => p)).
  - intros f. simpl. tauto.
  - intros f [<-|[<-|[]]]; vm_compute; discriminate.
Defined.

Lemma second_answer_is_used_witness :
  let w := world (dirty_repo "d") [AttributeError; Completion (Some "Fix the parser")] in
  let res := toy_commit_message "d" None w in
  fst res = Return (Some (postprocess "Fix the parser"))
  /\ length (requests (snd res)) = (length (requests w) + 2)%nat
  /\ io (snd res) = io w.
Proof.
  intros w res.
  apply (second_answer_is_used gpt35 gpt35_16k system_prompt "d" None w
           AttributeError [Completion (Some "Fix the parser")] []).
  - vm_compute. reflexivity.
  - reflexivity.
  - now left.
  - reflexivity.
Defined.

Lemma postprocess_lone_quote_witness :
  postprocess (" " +:+ String dquote EmptyString +:+ nl) = EmptyString.
Proof. apply postprocess_lone_quote. vm_compute. reflexivity. Defined.
